(** * shrtie: a URL shortener with Redis and SQLite backends

    A shallow embedding of the storage backends of [github.com/realfake/shrtie]
    ([backend/redis], [backend/sqlite3]) and of the save handler of the
    [shrtie] package, with the parts of the Go standard library they call
    ([encoding/binary] varints, raw [encoding/base64], [strconv], [time]).

    Go strings are byte strings: they are [string] here (a list of 8-bit
    [ascii]).  Raw bytes are [Z] in [0, 256).  Fixed-width integers are [Z]
    with their wrap-around written out. *)

From Stdlib Require Import ZArith List String Ascii Bool Lia.
From stdpp Require Import gmap strings list.

Local Open Scope string_scope.
Local Open Scope Z_scope.

(** ** Machine integers *)

Definition u64 (x : Z) : Z := x mod 2 ^ 64.
Definition i64 (x : Z) : Z := (x + 2 ^ 63) mod 2 ^ 64 - 2 ^ 63.
Definition byte (x : Z) : Z := x mod 256.

Definition MaxInt64 : Z := 2 ^ 63 - 1.
Definition MinInt64 : Z := - 2 ^ 63.

(** ** encoding/binary: variable-length integers *)

Module binary.

(** [PutUvarint]: [for x >= 0x80 { buf[i] = byte(x) | 0x80; x >>= 7; i++ };
    buf[i] = byte(x); return i + 1].  Every round writes [buf[i]] and moves
    [i] on by one, so the loop is driven by the slots left in [buf]: with none
    left the write is out of range and the Go run time panics ([None]). *)
Fixpoint PutUvarint_from (slots : nat) (buf : list Z) (i : nat) (x : Z)
  : option (list Z * Z) :=
  match slots with
  | O => None
  | S slots' =>
      if 128 <=? x
      then PutUvarint_from slots' (<[i := Z.lor (byte x) 128]> buf) (S i) (Z.shiftr x 7)
      else Some (<[i := byte x]> buf, Z.of_nat (S i))
  end.

Definition PutUvarint (buf : list Z) (x : Z) : option (list Z * Z) :=
  PutUvarint_from (length buf) buf 0 x.

(** [PutVarint]: zig-zag, then [PutUvarint]. *)
Definition PutVarint (buf : list Z) (x : Z) : option (list Z * Z) :=
  let ux := u64 (Z.shiftl (u64 x) 1) in
  let ux := if x <? 0 then u64 (Z.lnot ux) else ux in
  PutUvarint buf ux.

(** [Uvarint]: [i] is the index of the byte read, [x] the value gathered so
    far and [s] the shift.  The result is the value and the number of bytes
    read (0: buffer too small, negative: overflow). *)
Fixpoint Uvarint_from (buf : list Z) (i : Z) (x s : Z) : Z * Z :=
  match buf with
  | [] => (0, 0)
  | b :: rest =>
      if b <? 128 then
        if (9 <? i) || ((i =? 9) && (1 <? b)) then (0, - (i + 1))
        else (Z.lor x (u64 (Z.shiftl b s)), i + 1)
      else Uvarint_from rest (i + 1) (Z.lor x (u64 (Z.shiftl (Z.land b 127) s))) (s + 7)
  end.

Definition Uvarint (buf : list Z) : Z * Z := Uvarint_from buf 0 0 0.

(** [Varint]: [x := int64(ux >> 1); if ux&1 != 0 { x = ^x }]. *)
Definition Varint (buf : list Z) : Z * Z :=
  let '(ux, n) := Uvarint buf in
  let x := i64 (Z.shiftr ux 1) in
  let x := if negb (Z.land ux 1 =? 0) then Z.lnot x else x in
  (x, n).

End binary.

(** ** encoding/base64, unpadded *)

Module base64.

(** An encoding is its 64-character alphabet; both encodings the backends
    use are the [Raw] ones, built with [NoPadding]. *)
Definition Encoding := string.

Definition encodeStd : Encoding :=
  "ABCDEFGHIJKLMNOPQRSTUVWXYZabcdefghijklmnopqrstuvwxyz0123456789+/".
Definition encodeURL : Encoding :=
  "ABCDEFGHIJKLMNOPQRSTUVWXYZabcdefghijklmnopqrstuvwxyz0123456789-_".

Definition RawStdEncoding : Encoding := encodeStd.
Definition RawURLEncoding : Encoding := encodeURL.

(** [enc.encode[v]] *)
Definition encode (enc : Encoding) (v : Z) : ascii :=
  nth (Z.to_nat v) (list_ascii_of_string enc) zero.

(** [enc.decodeMap]: every entry is 0xFF, then
    [for i := 0; i < len(encoder); i++ { decodeMap[encoder[i]] = byte(i) }]. *)
Fixpoint decodeMap_from (encoder : list ascii) (i : Z) (m : ascii -> Z) : ascii -> Z :=
  match encoder with
  | [] => m
  | e :: encoder' =>
      decodeMap_from encoder' (i + 1) (fun c => if Ascii.eqb c e then byte i else m c)
  end.

Definition decodeMap (enc : Encoding) : ascii -> Z :=
  decodeMap_from (list_ascii_of_string enc) 0 (fun _ => 255).

(** [Encode]: three source bytes become four characters; a rest of one or two
    bytes becomes two or three characters, with no padding. *)
Fixpoint Encode (enc : Encoding) (src : list Z) : list ascii :=
  match src with
  | [] => []
  | [b0] =>
      let val := Z.shiftl b0 16 in
      [encode enc (Z.land (Z.shiftr val 18) 63); encode enc (Z.land (Z.shiftr val 12) 63)]
  | [b0; b1] =>
      let val := Z.lor (Z.shiftl b0 16) (Z.shiftl b1 8) in
      [encode enc (Z.land (Z.shiftr val 18) 63); encode enc (Z.land (Z.shiftr val 12) 63);
       encode enc (Z.land (Z.shiftr val 6) 63)]
  | b0 :: b1 :: b2 :: rest =>
      let val := Z.lor (Z.lor (Z.shiftl b0 16) (Z.shiftl b1 8)) b2 in
      encode enc (Z.land (Z.shiftr val 18) 63) :: encode enc (Z.land (Z.shiftr val 12) 63)
      :: encode enc (Z.land (Z.shiftr val 6) 63) :: encode enc (Z.land val 63)
      :: Encode enc rest
  end.

Definition EncodeToString (enc : Encoding) (src : list Z) : string :=
  string_of_list_ascii (Encode enc src).

(** Line breaks are dropped before decoding. *)
Definition isNewline (c : ascii) : bool :=
  Ascii.eqb c "010"%char || Ascii.eqb c "013"%char.

(** [dbuf[j] = enc.decodeMap[in]; if dbuf[j] == 0xFF { return CorruptInputError }] *)
Definition dbuf (enc : Encoding) (c : ascii) : option Z :=
  let d := decodeMap enc c in
  if d =? 255 then None else Some d.

(** [val := uint(dbuf[0])<<18 | uint(dbuf[1])<<12 | uint(dbuf[2])<<6 | uint(dbuf[3])] *)
Definition quantum (d0 d1 d2 d3 : Z) : Z :=
  Z.lor (Z.lor (Z.lor (Z.shiftl d0 18) (Z.shiftl d1 12)) (Z.shiftl d2 6)) d3.

(** [decode]: four characters give three bytes; at the end of the input two
    characters give one byte, three give two (the missing [dbuf] entries are
    0), and a single one is corrupt input. *)
Fixpoint decode (enc : Encoding) (src : list ascii) : option (list Z) :=
  match src with
  | [] => Some []
  | [c0] => None
  | [c0; c1] =>
      d0 ← dbuf enc c0; d1 ← dbuf enc c1;
      let val := quantum d0 d1 0 0 in
      Some [byte (Z.shiftr val 16)]
  | [c0; c1; c2] =>
      d0 ← dbuf enc c0; d1 ← dbuf enc c1; d2 ← dbuf enc c2;
      let val := quantum d0 d1 d2 0 in
      Some [byte (Z.shiftr val 16); byte (Z.shiftr val 8)]
  | c0 :: c1 :: c2 :: c3 :: rest =>
      d0 ← dbuf enc c0; d1 ← dbuf enc c1; d2 ← dbuf enc c2; d3 ← dbuf enc c3;
      let val := quantum d0 d1 d2 d3 in
      dst ← decode enc rest;
      Some (byte (Z.shiftr val 16) :: byte (Z.shiftr val 8) :: byte val :: dst)
  end.

(** [DecodeString]: line breaks are dropped, the rest is decoded. *)
Definition DecodeString (enc : Encoding) (s : string) : option (list Z) :=
  decode enc (List.filter (fun c => negb (isNewline c)) (list_ascii_of_string s)).

End base64.

(** ** strconv *)

Module strconv.

Inductive NumError := ErrSyntax | ErrRange.

Definition digit (d : Z) : ascii := ascii_of_N (Z.to_N (48 + d)).

(** [formatBits], base 10: the digits are written from the right,
    [for u >= 10 { q := u / 10; a[i] = '0' + u - q*10; u = q }; a[i] = '0' + u].
    The buffer has 65 slots. *)
Fixpoint formatBits (slots : nat) (u : Z) (a : list ascii) : list ascii :=
  match slots with
  | O => a
  | S slots' =>
      if 10 <=? u
      then let q := u / 10 in formatBits slots' q (digit (u - q * 10) :: a)
      else digit u :: a
  end.

(** [FormatInt(i, 10)] *)
Definition FormatInt (i : Z) : string :=
  if i <? 0
  then string_of_list_ascii ("-"%char :: formatBits 65 (u64 (- i)) [])
  else string_of_list_ascii (formatBits 65 (u64 i) []).

Definition isDigit (d : ascii) : bool :=
  (48 <=? Z.of_N (N_of_ascii d)) && (Z.of_N (N_of_ascii d) <=? 57).

Definition maxUint64 : Z := 2 ^ 64 - 1.

(** [ParseUint(s, 10, 64)] after the test for the empty string: [n] is the
    value read so far.  A letter has a value of 10 or more, which is not
    below the base, so every byte that is not a decimal digit is a syntax
    error. *)
Fixpoint ParseUint_from (s : list ascii) (n : Z) : Z * option NumError :=
  match s with
  | [] => (n, None)
  | d :: s' =>
      if isDigit d then
        let v := Z.of_N (N_of_ascii d) - 48 in
        if maxUint64 / 10 + 1 <=? n then (maxUint64, Some ErrRange)
        else
          let n := u64 (n * 10) in
          let n1 := u64 (n + v) in
          if (n1 <? n) || (maxUint64 <? n1) then (maxUint64, Some ErrRange)
          else ParseUint_from s' n1
      else (0, Some ErrSyntax)
  end.

Definition ParseUint (s : list ascii) : Z * option NumError :=
  match s with
  | [] => (0, Some ErrSyntax)
  | _ => ParseUint_from s 0
  end.

(** [ParseInt(s, 10, 64)] *)
Definition ParseInt (s : string) : Z * option NumError :=
  match list_ascii_of_string s with
  | [] => (0, Some ErrSyntax)
  | c :: s1 =>
      let neg := Ascii.eqb c "-"%char in
      let s' := if Ascii.eqb c "+"%char || neg then s1 else c :: s1 in
      let '(un, err) := ParseUint s' in
      match err with
      | Some ErrSyntax => (0, err)
      | _ =>
          let cutoff := 2 ^ 63 in
          if negb neg && (cutoff <=? un) then (cutoff - 1, Some ErrRange)
          else if neg && (cutoff <? un) then (- cutoff, Some ErrRange)
          else (if neg then - un else un, None)
      end
  end.

End strconv.

(** ** time *)

Module time.

(** A [Duration] is a number of nanoseconds (an [int64]). *)
Definition Duration := Z.
Definition Second : Duration := 1000000000.

(** A wall-clock instant: seconds since the Unix epoch and the nanoseconds
    within the second. *)
Record Time := mkTime { sec : Z; nsec : Z }.

Definition Unix (t : Time) : Z := sec t.

(** [time.Unix(sec, 0)] *)
Definition FromUnix (s : Z) : Time := mkTime s 0.

(** [t.Add(d)]; Go's [/] and [%] truncate towards zero. *)
Definition Add (t : Time) (d : Duration) : Time :=
  let sec' := sec t + Z.quot d 1000000000 in
  let nsec' := nsec t + Z.rem d 1000000000 in
  if 1000000000 <=? nsec' then mkTime (sec' + 1) (nsec' - 1000000000)
  else if nsec' <? 0 then mkTime (sec' - 1) (nsec' + 1000000000)
  else mkTime sec' nsec'.

End time.

(** ** Errors and outcomes *)

(** The [error] values the backends return or pass on. *)
Inductive error :=
| redis_ErrWrongKey                 (* backend/redis: errors.New("Wrong key") *)
| redis_ErrTTL                      (* backend/redis: errors.New("TTL exceeded!") *)
| sqlite3_ErrWrongKey               (* backend/sqlite3: errors.New("Wrong key") *)
| sqlite3_ErrTTL                    (* backend/sqlite3: errors.New("TTL exceeded") *)
| redis_Nil                         (* redis.Nil: the reply was nil *)
| redis_Error (msg : string)        (* an error reply of the server *)
| net_Error                         (* the connection failed *)
| sql_ErrNoRows                     (* sql.ErrNoRows *)
| sql_Error.                        (* the database failed *)

(** A call returns a value or panics. *)
Inductive outcome (A : Type) :=
| Returns (a : A)
| Panics.
Arguments Returns {A} a.
Arguments Panics {A}.

(** ** The Redis server and the redis.v4 client *)

Module redis.

Inductive value :=
| VString (s : string)
| VHash (h : gmap string string).

Inductive command :=
| INCR (key : string)
| HSET (key field val : string)
| HMSET (key : string) (fields : list (string * string))
| HGET (key field : string)
| HINCRBY (key field : string) (incr : Z)
| HGETALL (key : string).

Inductive reply :=
| Integer (n : Z)
| Bulk (s : string)
| Null
| Fields (h : gmap string string)
| Status (s : string)
| Error (msg : string)
| NoReply.                          (* client side: the connection failed *)

(** The server reads a stored string as a number only in its canonical
    decimal form. *)
Definition string2ll (s : string) : option Z :=
  match strconv.ParseInt s with
  | (n, None) => if String.eqb (strconv.FormatInt n) s then Some n else None
  | _ => None
  end.

Definition WRONGTYPE : reply :=
  Error "WRONGTYPE Operation against a key holding the wrong kind of value".

(** The hash stored under [key]; a missing key reads as the empty hash. *)
Definition hash_at (db : gmap string value) (key : string) : option (gmap string string) :=
  match db !! key with
  | None => Some ∅
  | Some (VHash h) => Some h
  | Some (VString _) => None
  end.

Definition hmset (fields : list (string * string)) (h : gmap string string)
  : gmap string string :=
  fold_left (fun h fv => <[fv.1 := fv.2]> h) fields h.

(** One command, run by the server. *)
Definition exec (c : command) (db : gmap string value) : gmap string value * reply :=
  match c with
  | INCR key =>
      match db !! key with
      | None => (<[key := VString (strconv.FormatInt 1)]> db, Integer 1)
      | Some (VString s) =>
          match string2ll s with
          | Some n =>
              if n <? MaxInt64
              then (<[key := VString (strconv.FormatInt (n + 1))]> db, Integer (n + 1))
              else (db, Error "ERR increment or decrement would overflow")
          | None => (db, Error "ERR value is not an integer or out of range")
          end
      | Some (VHash _) => (db, WRONGTYPE)
      end
  | HSET key field val =>
      match hash_at db key with
      | Some h =>
          (<[key := VHash (<[field := val]> h)]> db,
           Integer (match h !! field with Some _ => 0 | None => 1 end))
      | None => (db, WRONGTYPE)
      end
  | HMSET key fields =>
      match hash_at db key with
      | Some h => (<[key := VHash (hmset fields h)]> db, Status "OK")
      | None => (db, WRONGTYPE)
      end
  | HGET key field =>
      match hash_at db key with
      | Some h => (db, match h !! field with Some v => Bulk v | None => Null end)
      | None => (db, WRONGTYPE)
      end
  | HINCRBY key field incr =>
      match hash_at db key with
      | Some h =>
          match (match h !! field with Some v => string2ll v | None => Some 0 end) with
          | Some n =>
              if (MinInt64 <=? n + incr) && (n + incr <=? MaxInt64)
              then (<[key := VHash (<[field := strconv.FormatInt (n + incr)]> h)]> db,
                    Integer (n + incr))
              else (db, Error "ERR increment or decrement would overflow")
          | None => (db, Error "ERR hash value is not an integer")
          end
      | None => (db, WRONGTYPE)
      end
  | HGETALL key =>
      match hash_at db key with
      | Some h => (db, Fields h)
      | None => (db, WRONGTYPE)
      end
  end.

(** The client with the server behind it: the key space, whether the
    connection works, and every command the client has sent. *)
Record Client := mkClient {
  db : gmap string value;
  up : bool;
  sent : list command
}.

Fixpoint exec_all (cmds : list command) (d : gmap string value)
  : gmap string value * list reply :=
  match cmds with
  | [] => (d, [])
  | c :: cmds' =>
      let '(d1, r) := exec c d in
      let '(d2, rs) := exec_all cmds' d1 in
      (d2, r :: rs)
  end.

(** The error of a command, as the client sets it from the reply. *)
Definition err_of (r : reply) : option error :=
  match r with
  | Null => Some redis_Nil
  | Error msg => Some (redis_Error msg)
  | NoReply => Some net_Error
  | _ => None
  end.

Fixpoint firstCmdsErr (rs : list reply) : option error :=
  match rs with
  | [] => None
  | r :: rs' => match err_of r with Some e => Some e | None => firstCmdsErr rs' end
  end.

(** Send [cmds] in one round trip and read the replies. *)
Definition process (cmds : list command) (c : Client) : Client * list reply :=
  if up c then
    let '(d, rs) := exec_all cmds (db c) in
    (mkClient d true (sent c ++ cmds), rs)
  else (mkClient (db c) false (sent c ++ cmds), map (fun _ => NoReply) cmds).

(** [c.Incr(key).Result()] *)
Definition Incr (key : string) (c : Client) : Client * (Z * option error) :=
  let '(c', rs) := process [INCR key] c in
  match rs with
  | [Integer n] => (c', (n, None))
  | r :: _ => (c', (0, err_of r))
  | [] => (c', (0, None))
  end.

(** [c.Pipelined(fn)], [cmds] being the commands [fn] queues: all of them are
    sent, and the error is that of the first command that failed. *)
Definition Pipelined (cmds : list command) (c : Client)
  : Client * (list reply * option error) :=
  match cmds with
  | [] => (c, ([], Some (redis_Error "redis: pipeline is empty")))
  | _ => let '(c', rs) := process cmds c in (c', (rs, firstCmdsErr rs))
  end.

(** [c.HMSet(key, fields).Err()] *)
Definition HMSet (key : string) (fields : list (string * string)) (c : Client)
  : Client * option error :=
  let '(c', rs) := process [HMSET key fields] c in
  (c', firstCmdsErr rs).

(** [c.HGetAll(key).Result()] *)
Definition HGetAll (key : string) (c : Client)
  : Client * (gmap string string * option error) :=
  let '(c', rs) := process [HGETALL key] c in
  match rs with
  | [Fields h] => (c', (h, None))
  | r :: _ => (c', (∅, err_of r))
  | [] => (c', (∅, None))
  end.

(** A [*StringCmd]: its [Val()] and its [Int64()]. *)
Definition Val (r : reply) : string :=
  match r with Bulk s => s | _ => "" end.

Definition Int64 (r : reply) : Z * bool :=
  match r with
  | Bulk s => let '(n, e) := strconv.ParseInt s in (n, bool_decide (e = None))
  | _ => (0, false)
  end.

End redis.

(** ** The shrtie package: what the backends share *)

Record Metadata := mkMetadata {
  URL : string;
  TTL : Z;
  Clicked : Z;
  Created : time.Time
}.

(** [buf := make([]byte, 8); size := binary.PutVarint(buf, index); buf[:size]]:
    the identifier as a varint, cut to its length. *)
Definition varintBytes (index : Z) : outcome (list Z) :=
  match binary.PutVarint (replicate 8 0) index with
  | Some (buf, size) => Returns (take (Z.to_nat size) buf)
  | None => Panics
  end.

(** ** backend/redis (redis.go) *)

Module Redis.

Definition metaUntil : string := "until".
Definition metaCount : string := "count".
Definition metaCreated : string := "created".
Definition metaUrl : string := "url".

Definition ErrWrongKey : error := redis_ErrWrongKey.
Definition ErrTTL : error := redis_ErrTTL.

(** The [Redis] struct; its [conn] is the [redis.Client] the operations
    thread through. *)
Record Redis := mkRedis { prefix : string }.

(** [New]: the prefix is fixed. *)
Definition New : Redis := mkRedis "shrtie/".

(** [escape = regexp.MustCompile(`[^0-9A-Za-z_-]`)]: the bytes the class
    leaves out are exactly those below. *)
Definition inClass (c : ascii) : bool :=
  let n := Z.of_N (N_of_ascii c) in
  ((48 <=? n) && (n <=? 57)) || ((65 <=? n) && (n <=? 90))
  || ((97 <=? n) && (n <=? 122)) || (n =? 95) || (n =? 45).

(** [escape.MatchString(key)]: some character of [key] is outside the class;
    a byte that is not ASCII is part of such a character. *)
Definition escape_MatchString (key : string) : bool :=
  existsb (fun c => negb (inClass c)) (list_ascii_of_string key).

Definition Save (r : Redis) (now : time.Time) (value : string) (ttl : time.Duration)
    (c : redis.Client) : redis.Client * outcome string :=
  let '(c1, (index, err)) := redis.Incr (prefix r ++ "meta:count") c in
  match err with
  | Some _ => (c1, Returns "")
  | None =>
      match varintBytes index with
      | Panics => (c1, Panics)
      | Returns bytes =>
          let key := base64.EncodeToString base64.RawStdEncoding bytes in
          let path := prefix r ++ key in
          let until :=
            if ttl =? 0 then "0"
            else strconv.FormatInt (time.Unix (time.Add now ttl)) in
          let '(c2, (_, err)) :=
            redis.Pipelined
              [redis.HSET path metaUrl value;
               redis.HSET path metaCreated (strconv.FormatInt (time.Unix now));
               redis.HSET path metaUntil until] c1 in
          match err with
          | Some _ => (c2, Returns "")
          | None => (c2, Returns key)
          end
      end
  end.

Definition Get (r : Redis) (now : time.Time) (key : string) (c : redis.Client)
  : redis.Client * (string * option error) :=
  if escape_MatchString key then (c, ("", Some ErrWrongKey))
  else
    let path := prefix r ++ key in
    let '(c1, (rs, err)) :=
      redis.Pipelined
        [redis.HGET path metaUrl; redis.HGET path metaUntil;
         redis.HINCRBY path metaCount 1] c in
    match err with
    | Some e => (c1, ("", Some e))
    | None =>
        let url := nth 0 rs redis.NoReply in
        let until := nth 1 rs redis.NoReply in
        let ttlTo := (redis.Int64 until).1 in
        if negb (ttlTo =? 0) && (ttlTo <? time.Unix now)
        then (c1, ("", Some ErrTTL))
        else (c1, (redis.Val url, None))
    end.

(** [objMap[field]]: a missing entry reads as the empty string. *)
Definition at_ (objMap : gmap string string) (field : string) : string :=
  default "" (objMap !! field).

Definition Info (r : Redis) (now : time.Time) (key : string) (c : redis.Client)
  : redis.Client * (option Metadata * option error) :=
  let path := prefix r ++ key in
  let '(c1, (objMap, err)) := redis.HGetAll path c in
  match err with
  | Some e => (c1, (None, Some e))
  | None =>
      if bool_decide (size objMap = 0%nat) then (c1, (None, Some ErrWrongKey))
      else
        let now := time.Unix now in
        let until := (strconv.ParseInt (at_ objMap metaUntil)).1 in
        let meta (ttl : Z) :=
          let created := (strconv.ParseInt (at_ objMap metaCreated)).1 in
          let clicked := (strconv.ParseInt (at_ objMap metaCount)).1 in
          (c1, (Some (mkMetadata (at_ objMap metaUrl) ttl clicked (time.FromUnix created)),
                None)) in
        if 0 <? i64 (until - now) then meta (i64 (until - now))
        else if until =? 0 then meta 0
        else (c1, (None, Some ErrTTL))
  end.

End Redis.

(** ** backend/redis, the version with the length limit *)

Module RedisHMSet.

Definition maxLength : Z := 2048.

(** [len(value)] *)
Definition len (s : string) : Z := Z.of_nat (String.length s).

Definition Save (r : Redis.Redis) (now : time.Time) (value : string) (ttl : time.Duration)
    (c : redis.Client) : redis.Client * outcome string :=
  if maxLength <? len value then (c, Returns "")
  else
    let '(c1, (index, err)) := redis.Incr (Redis.prefix r ++ "meta:count") c in
    match err with
    | Some _ => (c1, Returns "")
    | None =>
        match varintBytes index with
        | Panics => (c1, Panics)
        | Returns bytes =>
            let key := base64.EncodeToString base64.RawStdEncoding bytes in
            let until :=
              if ttl =? 0 then "0"
              else strconv.FormatInt (time.Unix (time.Add now ttl)) in
            let '(c2, err) :=
              redis.HMSet (Redis.prefix r ++ key)
                [(Redis.metaUrl, value);
                 (Redis.metaCreated, strconv.FormatInt (time.Unix now));
                 (Redis.metaUntil, until)] c1 in
            match err with
            | Some _ => (c2, Returns "")
            | None => (c2, Returns key)
            end
        end
    end.

End RedisHMSet.

(** ** The SQLite database behind database/sql *)

Module sql.

(** A row of [shrtie_url]; [id] is the key of the table. *)
Record row := mkRow { url : string; until : Z; count : Z; created : Z }.

(** The table, the AUTOINCREMENT sequence of the table (the largest id ever
    handed out) and whether the database answers. *)
Record DB := mkDB {
  shrtie_url : gmap Z row;
  seq : Z;
  up : bool
}.

Definition max_id (rows : gmap Z row) : Z :=
  map_fold (fun id _ m => Z.max id m) 0 rows.

(** [INSERT INTO shrtie_url(url, until, created) VALUES (?,?,?)] and
    [LastInsertId]: the id is one more than the largest ever used, [count]
    takes its default 0. *)
Definition insert (value : string) (until created : Z) (d : DB) : DB * (Z * option error) :=
  if up d then
    let last := Z.max (seq d) (max_id (shrtie_url d)) in
    if last <? MaxInt64 then
      let id := last + 1 in
      (mkDB (<[id := mkRow value until 0 created]> (shrtie_url d)) id true, (id, None))
    else (d, (0, Some sql_Error))
  else (d, (0, Some sql_Error)).

(** [SELECT ... FROM shrtie_url WHERE id = ?], then [Scan]. *)
Definition query (id : Z) (d : DB) : row + error :=
  if up d then
    match shrtie_url d !! id with
    | Some r => inl r
    | None => inr sql_ErrNoRows
    end
  else inr sql_Error.

End sql.

(** ** backend/sqlite3 *)

Module Sqlite3.

Definition maxLength : Z := 2048.

Definition ErrWrongKey : error := sqlite3_ErrWrongKey.
Definition ErrTTL : error := sqlite3_ErrTTL.

Definition len (s : string) : Z := Z.of_nat (String.length s).

Definition toInt64 (s : string) : Z * option error :=
  match base64.DecodeString base64.RawURLEncoding s with
  | None => (0, Some ErrWrongKey)
  | Some buf => ((binary.Varint buf).1, None)
  end.

Definition Get (now : time.Time) (key : string) (d : sql.DB)
  : sql.DB * (string * option error) :=
  let '(id, err) := toInt64 key in
  match err with
  | Some e => (d, ("", Some e))
  | None =>
      match sql.query id d with
      | inr _ => (d, ("", None))
      | inl r =>
          if sql.until r <? time.Unix now then (d, ("", Some ErrTTL))
          else (d, (sql.url r, None))
      end
  end.

Definition Save (now : time.Time) (value : string) (ttl : time.Duration) (d : sql.DB)
  : sql.DB * outcome string :=
  if maxLength <? len value then (d, Returns "")
  else
    let until := if negb (ttl =? 0) then time.Unix (time.Add now ttl) else 0 in
    let '(d1, (index, err)) := sql.insert value until (time.Unix now) d in
    match err with
    | Some _ => (d1, Returns "")
    | None =>
        match varintBytes index with
        | Panics => (d1, Panics)
        | Returns bytes =>
            (d1, Returns (base64.EncodeToString base64.RawURLEncoding bytes))
        end
    end.

Definition Info (now : time.Time) (key : string) (d : sql.DB)
  : sql.DB * (option Metadata * option error) :=
  let '(id, err) := toInt64 key in
  match err with
  | Some e => (d, (None, Some e))
  | None =>
      (* the error of [Scan] is only logged; without a row the variables keep
         their zero values *)
      let r := match sql.query id d with
               | inl r => r
               | inr _ => sql.mkRow "" 0 0 0
               end in
      let now := time.Unix now in
      let meta (ttl : Z) :=
        (d, (Some (mkMetadata (sql.url r) ttl (sql.count r) (time.FromUnix (sql.created r))),
             None)) in
      if 0 <? sql.until r then meta (i64 (sql.until r - now))
      else if sql.until r =? 0 then meta 0
      else (d, (None, Some ErrTTL))
  end.

End Sqlite3.

(** ** The shrtie package: the save handler *)

Module shrtie.

(** [GetSaver]: a backend over its store [S].  The instant is what
    [time.Now()] gives during the call. *)
Class GetSaver (S : Type) := {
  Get : time.Time -> string -> S -> S * (string * option error);
  Save : time.Time -> string -> time.Duration -> S -> S * outcome string
}.

Record Entry := mkEntry {
  Entry_URL : string;
  Entry_TTL : Z;
  Entry_Expires : time.Time
}.

Record Ack := mkAck { Ack_URL : string }.

(** What the handler reads of a request: the [Content-Type] header, the body
    as [json.Decode] returns it ([None]: the decoder failed), and what
    [concatURL] looks at ([r.Host], [r.TLS != nil], [r.URL]). *)
Record Request := mkRequest {
  ContentType : string;
  Body : option Entry;
  Host : string;
  TLS : bool;
  RequestURL : string
}.

Inductive Response :=
| HTTPError (msg : string) (code : Z)
| JSON (a : Ack).

Definition StatusBadRequest : Z := 400.

Section SaveHandler.
Context {S : Type} `{GetSaver S}.
(** [concatURL(r, key)]: the public link, made from the host, the scheme and
    the URL of the request, and the key; URL resolution is outside the model. *)
Variable concatURL : string -> bool -> string -> string -> string.

Definition SaveHandler (now : time.Time) (r : Request) (s : S) : S * outcome Response :=
  let ttl : time.Duration := 0 in
  if negb (String.eqb (ContentType r) "application/json")
  then (s, Returns (HTTPError "Wrong application" StatusBadRequest))
  else
    match Body r with
    | None => (s, Returns (HTTPError "Bad Data" StatusBadRequest))
    | Some request =>
        let ttl := i64 (i64 (time.Unix (Entry_Expires request) - time.Unix now) * time.Second) in
        let ttl := i64 (Entry_TTL request * time.Second) in
        let ttl := if ttl <? 0 then i64 (time.Second * 0) else ttl in
        let '(s', key) := Save now (Entry_URL request) ttl s in
        match key with
        | Panics => (s', Panics)
        | Returns key =>
        (s', Returns (JSON (mkAck (concatURL (Host r) (TLS r) (RequestURL r) key))))
        end
    end.
End SaveHandler.

Definition Redis_GetSaver (r : Redis.Redis) : GetSaver redis.Client :=
  {| Get := Redis.Get r; Save := Redis.Save r |}.

Definition Sqlite3_GetSaver : GetSaver sql.DB :=
  {| Get := Sqlite3.Get; Save := Sqlite3.Save |}.

End shrtie.

(** ** What a reader finds in the Redis store *)

Module View.

(** The key of the identifier counter. *)
Definition counterKey (r : Redis.Redis) : string := Redis.prefix r ++ "meta:count".

(** The counter as [INCR] reads it: a missing key counts as 0. *)
Definition counter (r : Redis.Redis) (c : redis.Client) : option Z :=
  match redis.db c !! counterKey r with
  | None => Some 0
  | Some (redis.VString s) => redis.string2ll s
  | Some (redis.VHash _) => None
  end.

(** The hash of a record. *)
Definition record (r : Redis.Redis) (key : string) (c : redis.Client)
  : option (gmap string string) :=
  match redis.db c !! (Redis.prefix r ++ key) with
  | Some (redis.VHash h) => Some h
  | _ => None
  end.

(** The click count of a record, read the way [Info] reads it. *)
Definition clicked (h : gmap string string) : Z :=
  (strconv.ParseInt (Redis.at_ h Redis.metaCount)).1.

End View.

(** ** Calls of [Redis.Save] that run at the same time

    A call talks to the server twice: the [INCR] that hands out the
    identifier, then the pipeline that writes the record.  The server runs one
    request at a time; between the two requests of a call the requests of
    other calls may run.  A schedule names, step by step, the call that moves
    and the instant it reads from the clock. *)

Module Concurrent.

Inductive call :=
| AtIncr (value : string) (ttl : time.Duration)
| AtPipelined (index : Z) (key : string) (value : string) (ttl : time.Duration)
| Returned (index : option Z) (res : outcome string).

Definition step (r : Redis.Redis) (now : time.Time) (t : call) (c : redis.Client)
  : redis.Client * call :=
  match t with
  | AtIncr value ttl =>
      let '(c1, (index, err)) := redis.Incr (Redis.prefix r ++ "meta:count") c in
      match err with
      | Some _ => (c1, Returned None (Returns ""))
      | None =>
          match varintBytes index with
          | Panics => (c1, Returned (Some index) Panics)
          | Returns bytes =>
              (c1, AtPipelined index
                     (base64.EncodeToString base64.RawStdEncoding bytes) value ttl)
          end
      end
  | AtPipelined index key value ttl =>
      let path := Redis.prefix r ++ key in
      let until :=
        if ttl =? 0 then "0"
        else strconv.FormatInt (time.Unix (time.Add now ttl)) in
      let '(c2, (_, err)) :=
        redis.Pipelined
          [redis.HSET path Redis.metaUrl value;
           redis.HSET path Redis.metaCreated (strconv.FormatInt (time.Unix now));
           redis.HSET path Redis.metaUntil until] c in
      match err with
      | Some _ => (c2, Returned (Some index) (Returns ""))
      | None => (c2, Returned (Some index) (Returns key))
      end
  | Returned _ _ => (c, t)
  end.

Fixpoint run (r : Redis.Redis) (schedule : list (nat * time.Time)) (calls : list call)
    (c : redis.Client) : redis.Client * list call :=
  match schedule with
  | [] => (c, calls)
  | (i, now) :: schedule' =>
      match calls !! i with
      | Some t =>
          let '(c', t') := step r now t c in
          run r schedule' (<[i := t']> calls) c'
      | None => run r schedule' calls c
      end
  end.

(** The identifier a call was handed, if it has got that far. *)
Definition identifier (t : call) : option Z :=
  match t with
  | AtIncr _ _ => None
  | AtPipelined index _ _ _ => Some index
  | Returned index _ => index
  end.

Definition identifiers (calls : list call) : list Z := omap identifier calls.

Definition returned (t : call) : bool :=
  match t with Returned _ _ => true | _ => false end.

Definition starting (t : call) : bool :=
  match t with AtIncr _ _ => true | _ => false end.

(** What holds of a call between two steps: a call past its [INCR] has its
    identifier, and the key of a call at its pipeline was made by the
    encoder. *)
Definition well_formed (t : call) : Prop :=
  match t with
  | AtIncr _ _ => True
  | AtPipelined _ key _ _ =>
      exists bytes, key = base64.EncodeToString base64.RawStdEncoding bytes
  | Returned index _ => is_Some index
  end.

(** What holds of the calls and the store between two steps, for a counter
    that stood at [c0] when the calls began. *)
Definition invariant (r : Redis.Redis) (c0 : Z) (calls : list call)
    (c : redis.Client) : Prop :=
  redis.up c = true
  /\ View.counter r c = Some (c0 + Z.of_nat (length (identifiers calls)))
  /\ identifiers calls
     ≡ₚ map (fun k => c0 + Z.of_nat k) (seq 1 (length (identifiers calls)))
  /\ Forall well_formed calls.

End Concurrent.

(** ** Stores and inputs the examples run on *)

Module Demo.
Definition fresh : redis.Client := redis.mkClient ∅ true [].
Definition url : string := "https://example.org".
Definition clock (s : Z) : time.Time := time.mkTime s 0.
(** One link saved at second 90 that runs out at second 100. *)
Definition saved : redis.Client :=
  (Redis.Save Redis.New (clock 90) url (10 * time.Second) fresh).1.
(** The hash [saved] holds under the key of the link. *)
Definition record : gmap string string :=
  <[Redis.metaUntil := "100"]>
    (<[Redis.metaCreated := "90"]> (<[Redis.metaUrl := url]> ∅)).
(** A store whose counter stands at 123. *)
Definition busy : redis.Client :=
  redis.mkClient {[ "shrtie/meta:count" := redis.VString "123" ]} true [].
(** A URL of 2049 bytes. *)
Definition long : string := string_of_list_ascii (repeat "a"%char 2049).
(** An empty SQLite database, and the same after one link that never runs
    out was saved. *)
Definition empty : sql.DB := sql.mkDB ∅ 0 true.
Definition kept : sql.DB := (Sqlite3.Save (clock 90) url 0 empty).1.
End Demo.

(** ** Lookups one after the other *)

Module Sequence.
(** One [Get] after the other on the same key, at the instants given. *)
Fixpoint lookups (r : Redis.Redis) (key : string) (times : list time.Time)
    (c : redis.Client) : redis.Client :=
  match times with
  | [] => c
  | now :: times' => lookups r key times' (Redis.Get r now key c).1
  end.
End Sequence.

(** ** The shrtie package: the redirect and the info handler *)

Module handlers.

(** [Infoer]: a backend that can report on a link.  A handler is built for
    a backend that is one; for any other [InfoHandler] stops the program. *)
Class Infoer (S : Type) := {
  Info : time.Time -> string -> S -> S * (option Metadata * option error)
}.

(** What a handler does to the [ResponseWriter], in the order it does it. *)
Inductive write :=
| Error (msg : string) (code : Z)        (* http.Error(w, msg, code) *)
| Redirect (url : string) (code : Z)     (* http.Redirect(w, r, url, code) *)
| Encode (metadata : option Metadata).   (* json.NewEncoder(w).Encode(metadata) *)

Definition StatusNotFound : Z := 404.
Definition StatusMovedPermanently : Z := 301.

(** [id] is [ctx.Value("id")], the identifier the router took from the
    path. *)
Definition RedirectHandler {S : Type} `{shrtie.GetSaver S}
    (now : time.Time) (id : string) (s : S) : S * list write :=
  let '(s', (value, err)) := shrtie.Get now id s in
  match err with
  | Some _ => (s', [Error "Wrong Path" StatusNotFound])
  | None => (s', [Redirect value StatusMovedPermanently])
  end.

(** After the error the handler does not return: the metadata is encoded in
    either case. *)
Definition InfoHandler {S : Type} `{Infoer S}
    (now : time.Time) (id : string) (s : S) : S * list write :=
  let '(s', (metadata, err)) := Info now id s in
  match err with
  | Some _ => (s', [Error "Wrong Path" StatusNotFound; Encode metadata])
  | None => (s', [Encode metadata])
  end.

Definition Redis_Infoer (r : Redis.Redis) : Infoer redis.Client :=
  {| Info := Redis.Info r |}.

Definition Sqlite3_Infoer : Infoer sql.DB :=
  {| Info := Sqlite3.Info |}.

End handlers.

(** ** More stores the examples run on *)

Module Sample.
(** A Redis store whose counter stands at 2^55 - 1. *)
Definition full : redis.Client :=
  redis.mkClient {[ "shrtie/meta:count" := redis.VString "36028797018963967" ]} true [].
(** A SQLite database that has handed out the identifiers up to 2^55 - 1. *)
Definition used_up : sql.DB := sql.mkDB ∅ 36028797018963967 true.
(** A SQLite database with one link, saved at second 90 for 10 seconds. *)
Definition timed : sql.DB :=
  (Sqlite3.Save (Demo.clock 90) Demo.url (10 * time.Second) Demo.empty).1.
(** A request to save [Demo.url] with the TTL given. *)
Definition entry (ttl : Z) : shrtie.Entry := shrtie.mkEntry Demo.url ttl (Demo.clock 0).
(** How the examples make the public link. *)
Definition link (host : string) (tls : bool) (url key : string) : string :=
  (if tls then "https://" else "http://") ++ host ++ "/" ++ key.
End Sample.

(** * Properties *)

(** ** Bit operations as arithmetic *)

Section Bits.

Lemma land_shiftl_low (hi lo k : Z) :
  0 <= k -> 0 <= lo < 2 ^ k -> Z.land (Z.shiftl hi k) lo = 0.
Proof.
  intros Hk Hlo. apply Z.bits_inj'. intros n Hn.
  rewrite Z.land_spec, Z.bits_0.
  destruct (Z.lt_ge_cases n k) as [Hlt | Hge].
  - rewrite Z.shiftl_spec_low by lia. reflexivity.
  - rewrite <- (Z.mod_small lo (2 ^ k)) by lia.
    rewrite Z.mod_pow2_bits_high by lia. apply andb_false_r.
Qed.

Lemma lor_shiftl_add (hi lo k : Z) :
  0 <= k -> 0 <= lo < 2 ^ k -> Z.lor (Z.shiftl hi k) lo = hi * 2 ^ k + lo.
Proof.
  intros Hk Hlo.
  rewrite <- (Z.shiftl_mul_pow2 hi k Hk).
  rewrite <- (Z.add_lor_land (Z.shiftl hi k) lo).
  rewrite land_shiftl_low by assumption. lia.
Qed.

Lemma lor_add_shiftl (lo hi k : Z) :
  0 <= k -> 0 <= lo < 2 ^ k -> Z.lor lo (Z.shiftl hi k) = lo + hi * 2 ^ k.
Proof.
  intros Hk Hlo. rewrite Z.lor_comm, lor_shiftl_add by assumption. lia.
Qed.

Lemma lor_disjoint_add (a b k : Z) :
  0 <= k -> a mod 2 ^ k = 0 -> 0 <= b < 2 ^ k -> Z.lor a b = a + b.
Proof.
  intros Hk Ha Hb.
  assert (E : a = Z.shiftl (a / 2 ^ k) k).
  { rewrite Z.shiftl_mul_pow2 by assumption.
    pose proof (Z.div_mod a (2 ^ k)). lia. }
  rewrite E at 1. rewrite lor_shiftl_add by assumption.
  pose proof (Z.div_mod a (2 ^ k)). lia.
Qed.

Lemma land_mod (a k : Z) : 0 <= k -> Z.land a (2 ^ k - 1) = a mod 2 ^ k.
Proof.
  intros Hk. rewrite <- Z.land_ones by assumption.
  rewrite Z.ones_equiv, Z.sub_1_r. reflexivity.
Qed.

End Bits.

(** ** base64: decoding what was encoded *)

Section Base64.

Lemma below_64 (P : Z -> bool) :
  forallb P (map Z.of_nat (seq 0 64)) = true ->
  forall v, 0 <= v < 64 -> P v = true.
Proof.
  intros Hall v Hv. rewrite forallb_forall in Hall. apply Hall.
  apply in_map_iff. exists (Z.to_nat v). split; [lia|].
  apply in_seq. lia.
Qed.

Lemma quantum_arith (d0 d1 d2 d3 : Z) :
  0 <= d0 < 64 -> 0 <= d1 < 64 -> 0 <= d2 < 64 -> 0 <= d3 < 64 ->
  base64.quantum d0 d1 d2 d3 = d0 * 262144 + d1 * 4096 + d2 * 64 + d3.
Proof.
  intros H0 H1 H2 H3. unfold base64.quantum.
  rewrite !Z.shiftl_mul_pow2 by lia.
  change (2 ^ 18) with 262144. change (2 ^ 12) with 4096. change (2 ^ 6) with 64.
  rewrite (lor_disjoint_add (d0 * 262144) (d1 * 4096) 18); [|lia| |lia].
  2:{ rewrite Z.mod_divide by lia. exists d0. reflexivity. }
  rewrite (lor_disjoint_add (d0 * 262144 + d1 * 4096) (d2 * 64) 12); [|lia| |lia].
  2:{ rewrite Z.mod_divide by lia. exists (d0 * 64 + d1). lia. }
  rewrite (lor_disjoint_add _ d3 6); [reflexivity|lia| |lia].
  rewrite Z.mod_divide by lia. exists (d0 * 4096 + d1 * 64 + d2). lia.
Qed.

Lemma source_arith (b0 b1 b2 : Z) :
  0 <= b0 < 256 -> 0 <= b1 < 256 -> 0 <= b2 < 256 ->
  Z.lor (Z.lor (Z.shiftl b0 16) (Z.shiftl b1 8)) b2 = b0 * 65536 + b1 * 256 + b2.
Proof.
  intros H0 H1 H2.
  rewrite !Z.shiftl_mul_pow2 by lia.
  change (2 ^ 16) with 65536. change (2 ^ 8) with 256.
  rewrite (lor_disjoint_add (b0 * 65536) (b1 * 256) 16); [|lia| |lia].
  2:{ rewrite Z.mod_divide by lia. exists b0. reflexivity. }
  rewrite (lor_disjoint_add _ b2 8); [reflexivity|lia| |lia].
  rewrite Z.mod_divide by lia. exists (b0 * 256 + b1). lia.
Qed.

Lemma sextet (val k : Z) :
  0 <= k -> Z.land (Z.shiftr val k) 63 = (val / 2 ^ k) mod 64.
Proof.
  intros Hk. rewrite Z.shiftr_div_pow2 by assumption.
  change 63 with (2 ^ 6 - 1). rewrite land_mod by lia. reflexivity.
Qed.

Lemma sextet_range (x : Z) : 0 <= x mod 64 < 64.
Proof. apply Z.mod_pos_bound. lia. Qed.

End Base64.

Lemma list_ind3 {A : Type} (P : list A -> Prop) :
  P [] -> (forall a, P [a]) -> (forall a b, P [a; b]) ->
  (forall a b c l, P l -> P (a :: b :: c :: l)) ->
  forall l, P l.
Proof.
  intros P0 P1 P2 P3.
  fix IH 1. intros [|a [|b [|c l]]];
    [exact P0 | apply P1 | apply P2 | apply P3, IH].
Qed.

Lemma requantum (V : Z) :
  0 <= V < 16777216 ->
  (V / 2 ^ 18) mod 64 * 262144 + (V / 2 ^ 12) mod 64 * 4096
  + (V / 2 ^ 6) mod 64 * 64 + (V / 2 ^ 0) mod 64 = V.
Proof.
  intros HV. change (2 ^ 18) with 262144. change (2 ^ 12) with 4096.
  change (2 ^ 6) with 64. change (2 ^ 0) with 1.
  Z.div_mod_to_equations. lia.
Qed.

Section Decode_Encode.

Variable enc : base64.Encoding.
Hypothesis enc_ok :
  forall v, 0 <= v < 64 -> base64.dbuf enc (base64.encode enc v) = Some v.

Lemma dbuf_sextet (val k : Z) :
  0 <= k ->
  base64.dbuf enc (base64.encode enc (Z.land (Z.shiftr val k) 63))
  = Some ((val / 2 ^ k) mod 64).
Proof.
  intros Hk. rewrite sextet by assumption. apply enc_ok, sextet_range.
Qed.

Lemma decode_Encode (src : list Z) :
  Forall (fun b => 0 <= b < 256) src ->
  base64.decode enc (base64.Encode enc src) = Some src.
Proof.
  induction src as [|b0|b0 b1|b0 b1 b2 rest IH] using list_ind3; intros Hsrc.
  - reflexivity.
  - apply Forall_cons_1 in Hsrc as [H0 _].
    cbn [base64.Encode base64.decode].
    rewrite !dbuf_sextet by lia. cbn [mbind option_bind].
    rewrite quantum_arith by (try apply sextet_range; lia).
    rewrite Z.shiftl_mul_pow2 by lia.
    unfold byte. rewrite Z.shiftr_div_pow2 by lia.
    change (2 ^ 18) with 262144. change (2 ^ 12) with 4096. change (2 ^ 16) with 65536.
    f_equal. f_equal. Z.div_mod_to_equations. lia.
  - apply Forall_cons_1 in Hsrc as [H0 Hsrc].
    apply Forall_cons_1 in Hsrc as [H1 _].
    cbn [base64.Encode base64.decode].
    rewrite !dbuf_sextet by lia. cbn [mbind option_bind].
    rewrite quantum_arith by (try apply sextet_range; lia).
    replace (Z.lor (Z.shiftl b0 16) (Z.shiftl b1 8)) with (b0 * 65536 + b1 * 256).
    2:{ pose proof (source_arith b0 b1 0 H0 H1 ltac:(lia)) as E.
        rewrite Z.lor_0_r in E. lia. }
    unfold byte. rewrite !Z.shiftr_div_pow2 by lia.
    change (2 ^ 18) with 262144. change (2 ^ 12) with 4096. change (2 ^ 16) with 65536.
    change (2 ^ 6) with 64. change (2 ^ 8) with 256.
    f_equal. f_equal; [|f_equal]; Z.div_mod_to_equations; lia.
  - apply Forall_cons_1 in Hsrc as [H0 Hsrc].
    apply Forall_cons_1 in Hsrc as [H1 Hsrc].
    apply Forall_cons_1 in Hsrc as [H2 Hsrc].
    cbn [base64.Encode base64.decode].
    rewrite source_arith by assumption.
    set (V := b0 * 65536 + b1 * 256 + b2).
    assert (HV : 0 <= V < 16777216) by (unfold V; lia).
    replace (Z.land V 63) with (Z.land (Z.shiftr V 0) 63)
      by (rewrite Z.shiftr_0_r; reflexivity).
    rewrite !dbuf_sextet by lia. cbn [mbind option_bind].
    rewrite quantum_arith by (apply sextet_range).
    rewrite requantum by assumption.
    rewrite IH by assumption. cbn [mbind option_bind].
    unfold byte. rewrite !Z.shiftr_div_pow2 by lia.
    change (2 ^ 16) with 65536. change (2 ^ 8) with 256.
    f_equal. f_equal; [|f_equal; [|f_equal]]; unfold V; Z.div_mod_to_equations; lia.
Qed.

End Decode_Encode.

Lemma land63_range (x : Z) : 0 <= Z.land x 63 < 64.
Proof.
  change 63 with (2 ^ 6 - 1). rewrite land_mod by lia. apply sextet_range.
Qed.

Lemma Encode_chars (enc : base64.Encoding) (src : list Z) :
  Forall (fun c => exists v, 0 <= v < 64 /\ c = base64.encode enc v)
         (base64.Encode enc src).
Proof.
  induction src as [|b0|b0 b1|b0 b1 b2 rest IH] using list_ind3;
    cbn [base64.Encode]; repeat apply Forall_cons_2; try apply Forall_nil_2;
    try assumption.
  all: eexists; split; [apply land63_range | reflexivity].
Qed.

Lemma URL_ok (v : Z) :
  0 <= v < 64 ->
  base64.dbuf base64.RawURLEncoding (base64.encode base64.RawURLEncoding v) = Some v.
Proof.
  intros Hv.
  pose proof (below_64
    (fun v => match base64.dbuf base64.RawURLEncoding
                      (base64.encode base64.RawURLEncoding v) with
              | Some d => d =? v
              | None => false
              end) ltac:(vm_compute; reflexivity) v Hv) as E.
  cbv beta in E.
  destruct (base64.dbuf _ _) as [d|]; [|discriminate].
  apply Z.eqb_eq in E. congruence.
Qed.

Lemma URL_inClass (v : Z) :
  0 <= v < 64 -> Redis.inClass (base64.encode base64.RawURLEncoding v) = true.
Proof.
  apply (below_64 (fun v => Redis.inClass (base64.encode base64.RawURLEncoding v))).
  vm_compute. reflexivity.
Qed.

Lemma alphabet_no_newline (enc : base64.Encoding) (v : Z) :
  enc = base64.RawURLEncoding \/ enc = base64.RawStdEncoding ->
  0 <= v < 64 -> base64.isNewline (base64.encode enc v) = false.
Proof.
  intros Henc Hv. apply negb_true_iff.
  revert v Hv. apply (below_64 (fun v => negb (base64.isNewline (base64.encode enc v)))).
  destruct Henc as [-> | ->]; vm_compute; reflexivity.
Qed.

Lemma filter_id {A : Type} (f : A -> bool) (l : list A) :
  Forall (fun x => f x = true) l -> List.filter f l = l.
Proof.
  induction 1 as [|x l Hx _ IH]; cbn; [reflexivity|].
  rewrite Hx, IH. reflexivity.
Qed.

(** Decoding the string [EncodeToString] made gives the bytes back. *)
Lemma DecodeString_EncodeToString (src : list Z) :
  Forall (fun b => 0 <= b < 256) src ->
  base64.DecodeString base64.RawURLEncoding
    (base64.EncodeToString base64.RawURLEncoding src) = Some src.
Proof.
  intros Hsrc. unfold base64.DecodeString, base64.EncodeToString.
  rewrite list_ascii_of_string_of_list_ascii.
  rewrite filter_id.
  - apply decode_Encode; [exact URL_ok | assumption].
  - eapply Forall_impl; [apply Encode_chars|].
    intros c (v & Hv & ->). cbv beta.
    rewrite alphabet_no_newline by (auto; lia). reflexivity.
Qed.

(** ** Varints: reading what was written *)

Lemma Uvarint_low (b j acc s : Z) (rest : list Z) :
  0 <= b < 128 -> 0 <= j < 9 ->
  binary.Uvarint_from (b :: rest) j acc s = (Z.lor acc (u64 (Z.shiftl b s)), j + 1).
Proof.
  intros Hb Hj. cbn [binary.Uvarint_from].
  destruct (Z.ltb_spec b 128); [|lia].
  destruct (Z.ltb_spec 9 j); [lia|].
  destruct (Z.eqb_spec j 9); [lia|]. reflexivity.
Qed.

Lemma septets (x s : Z) :
  0 <= x -> 0 <= s ->
  Z.lor (Z.shiftl (x mod 128) s) (Z.shiftl (Z.shiftr x 7) (s + 7)) = Z.shiftl x s.
Proof.
  intros Hx Hs.
  rewrite (Z.add_comm s 7).
  rewrite <- (Z.shiftl_shiftl (Z.shiftr x 7) 7 s) by lia.
  rewrite <- Z.shiftl_lor.
  f_equal. rewrite Z.shiftr_div_pow2 by lia.
  rewrite lor_add_shiftl by (try apply Z.mod_pos_bound; lia).
  change (2 ^ 7) with 128. Z.div_mod_to_equations. lia.
Qed.

Lemma high_byte (x : Z) :
  0 <= x -> 128 <= Z.lor (byte x) 128 < 256 /\ Z.land (Z.lor (byte x) 128) 127 = x mod 128.
Proof.
  intros Hx. unfold byte.
  assert (E : Z.lor (x mod 256) 128 = x mod 128 + 128).
  { rewrite <- (Z.add_lor_land (x mod 128) 128).
    replace (Z.land (x mod 128) 128) with 0.
    2:{ symmetry. change 128 with (Z.shiftl 1 7) at 2. rewrite Z.land_comm.
        apply land_shiftl_low; [lia|]. change (2 ^ 7) with 128. apply Z.mod_pos_bound. lia. }
    rewrite Z.add_0_r.
    apply Z.bits_inj'. intros n Hn. rewrite !Z.lor_spec.
    change 256 with (2 ^ 8). change (x mod 128) with (x mod 2 ^ 7).
    destruct (Z.eq_dec n 7) as [-> | Hne].
    - change (Z.testbit 128 7) with true. now rewrite !orb_true_r.
    - f_equal. destruct (Z.lt_ge_cases n 7).
      + rewrite !Z.mod_pow2_bits_low by lia. reflexivity.
      + rewrite !Z.mod_pow2_bits_high by lia. reflexivity. }
  rewrite E. pose proof (Z.mod_pos_bound x 128 ltac:(lia)). split; [lia|].
  change 127 with (2 ^ 7 - 1). rewrite land_mod by lia. change (2 ^ 7) with 128.
  Z.div_mod_to_equations. lia.
Qed.

Lemma PutUvarint_from_spec (slots : nat) :
  forall (buf : list Z) (i : nat) (x : Z),
  length buf = (i + slots)%nat -> (0 < slots)%nat ->
  0 <= x < 2 ^ (7 * Z.of_nat slots) ->
  exists buf' n,
    binary.PutUvarint_from slots buf i x = Some (buf', Z.of_nat n)
    /\ (i < n <= i + slots)%nat
    /\ length buf' = length buf
    /\ take i buf' = take i buf
    /\ Forall (fun b => 0 <= b < 256) (drop i (take n buf'))
    /\ forall j acc s,
         0 <= j -> j + Z.of_nat slots <= 9 ->
         0 <= s -> s + 7 * Z.of_nat slots <= 64 ->
         binary.Uvarint_from (drop i (take n buf')) j acc s
         = (Z.lor acc (Z.shiftl x s), j + Z.of_nat (n - i)).
Proof.
  induction slots as [|slots IH]; intros buf i x Hlen Hpos Hx; [lia|].
  cbn [binary.PutUvarint_from].
  destruct (Z.leb_spec 128 x) as [Hbig | Hsmall].
  - assert (Hslots : (0 < slots)%nat).
    { destruct slots; [|lia]. change (2 ^ (7 * Z.of_nat 1)) with 128 in Hx. lia. }
    destruct (high_byte x ltac:(lia)) as [Hb Hb7].
    set (b := Z.lor (byte x) 128) in *.
    destruct (IH (<[i := b]> buf) (S i) (Z.shiftr x 7)) as
      (buf' & n & Hput & Hn & Hlen' & Hpre & Hbytes & Hread).
    { rewrite length_insert. lia. }
    { assumption. }
    { rewrite Z.shiftr_div_pow2 by lia. change (2 ^ 7) with 128.
      replace (7 * Z.of_nat (S slots)) with (7 + 7 * Z.of_nat slots) in Hx by lia.
      rewrite Z.pow_add_r in Hx by lia. change (2 ^ 7) with 128 in Hx.
      split; [apply Z.div_pos; lia|].
      apply Z.div_lt_upper_bound; lia. }
    exists buf', n. rewrite Hput.
    rewrite length_insert in Hlen'.
    assert (Hi : buf' !! i = Some b).
    { rewrite <- (lookup_take_lt buf' (S i) i) by lia. rewrite Hpre.
      rewrite lookup_take_lt by lia. apply list_lookup_insert_eq. lia. }
    assert (Hdrop : drop i (take n buf') = b :: drop (S i) (take n buf')).
    { apply drop_S. rewrite lookup_take_lt by lia. exact Hi. }
    split; [reflexivity|]. split; [lia|]. split; [assumption|].
    split.
    { replace i with (i `min` S i)%nat at 1 by lia.
      rewrite <- (take_take buf' i (S i)), Hpre, take_take.
      replace (i `min` S i)%nat with i by lia. apply take_insert_ge. lia. }
    split.
    { rewrite Hdrop. apply Forall_cons_2; [lia | assumption]. }
    intros j acc s Hj Hj9 Hs Hs64. rewrite Hdrop.
    cbn [binary.Uvarint_from].
    destruct (Z.ltb_spec b 128); [lia|].
    rewrite Hread by lia. rewrite Hb7.
    assert (Hu : u64 (Z.shiftl (x mod 128) s) = Z.shiftl (x mod 128) s).
    { unfold u64. apply Z.mod_small. rewrite Z.shiftl_mul_pow2 by lia.
      pose proof (Z.mod_pos_bound x 128 ltac:(lia)).
      assert (2 ^ s * 128 <= 2 ^ 64).
      { change 128 with (2 ^ 7). rewrite <- Z.pow_add_r by lia.
        apply Z.pow_le_mono_r; lia. }
      assert (0 < 2 ^ s) by (apply Z.pow_pos_nonneg; lia). nia. }
    rewrite Hu, <- Z.lor_assoc, septets by lia.
    f_equal. lia.
  - exists (<[i := byte x]> buf), (S i).
    assert (Hbx : byte x = x) by (unfold byte; apply Z.mod_small; lia).
    assert (Hdrop : drop i (take (S i) (<[i := byte x]> buf)) = [x]).
    { rewrite (drop_S _ (byte x)).
      - rewrite Hbx. f_equal. apply drop_ge. rewrite length_take. lia.
      - rewrite lookup_take_lt by lia. apply list_lookup_insert_eq. lia. }
    split; [reflexivity|]. split; [lia|]. split; [apply length_insert|].
    split; [apply take_insert_ge; lia|].
    split; [rewrite Hdrop; apply Forall_cons_2; [lia|constructor]|].
    intros j acc s Hj Hj9 Hs Hs64. rewrite Hdrop.
    rewrite Uvarint_low by lia.
    f_equal; [|lia]. f_equal. unfold u64. apply Z.mod_small.
    rewrite Z.shiftl_mul_pow2 by lia.
    assert (2 ^ s * 128 <= 2 ^ 64).
    { change 128 with (2 ^ 7). rewrite <- Z.pow_add_r by lia.
      apply Z.pow_le_mono_r; lia. }
    assert (0 < 2 ^ s) by (apply Z.pow_pos_nonneg; lia). nia.
Qed.

Lemma varintBytes_spec (n : Z) :
  0 <= n < 2 ^ 55 ->
  exists bytes,
    varintBytes n = Returns bytes
    /\ Forall (fun b => 0 <= b < 256) bytes
    /\ (0 < length bytes <= 8)%nat
    /\ binary.Varint bytes = (n, Z.of_nat (length bytes)).
Proof.
  intros Hn. unfold varintBytes, binary.PutVarint, binary.PutUvarint.
  assert (Hux : u64 (Z.shiftl (u64 n) 1) = 2 * n).
  { unfold u64. rewrite (Z.mod_small n) by lia.
    rewrite Z.shiftl_mul_pow2 by lia. change (2 ^ 1) with 2.
    rewrite Z.mod_small by lia. lia. }
  rewrite Hux. destruct (Z.ltb_spec n 0); [lia|].
  destruct (PutUvarint_from_spec 8 (replicate 8 0) 0 (2 * n))
    as (buf' & k & Hput & Hk & Hlen & _ & Hbytes & Hread);
    [reflexivity | lia | change (2 ^ (7 * Z.of_nat 8)) with (2 ^ 56); lia |].
  change (length (replicate 8 0)) with 8%nat. rewrite Hput.
  rewrite Nat2Z.id. rewrite drop_0 in Hbytes, Hread.
  exists (take k buf'). split; [reflexivity|]. split; [assumption|].
  assert (Hlk : length (take k buf') = k).
  { rewrite length_take, Hlen. change (length (replicate 8 0)) with 8%nat. lia. }
  rewrite Hlk. split; [lia|].
  unfold binary.Varint, binary.Uvarint.
  rewrite Hread by lia. rewrite Z.lor_0_l, Z.shiftl_0_r, Nat.sub_0_r, Z.add_0_l.
  rewrite Z.shiftr_div_pow2 by lia. change (2 ^ 1) with 2.
  replace (2 * n / 2) with n by (Z.div_mod_to_equations; lia).
  replace (Z.land (2 * n) 1) with 0.
  2:{ change 1 with (2 ^ 1 - 1). rewrite land_mod by lia. change (2 ^ 1) with 2.
      Z.div_mod_to_equations; lia. }
  cbn [Z.eqb negb]. f_equal. unfold i64. rewrite Z.mod_small by lia. lia.
Qed.

Lemma toInt64_Save (n : Z) :
  0 <= n < 2 ^ 55 ->
  exists bytes,
    varintBytes n = Returns bytes
    /\ Sqlite3.toInt64 (base64.EncodeToString base64.RawURLEncoding bytes) = (n, None).
Proof.
  intros Hn. destruct (varintBytes_spec n Hn) as (bytes & Hb & Hrange & _ & Hv).
  exists bytes. split; [assumption|].
  unfold Sqlite3.toInt64. rewrite DecodeString_EncodeToString by assumption.
  rewrite Hv. reflexivity.
Qed.

(** ** strconv: parsing what was printed *)

Lemma digit_spec (d : Z) :
  0 <= d <= 9 ->
  strconv.isDigit (strconv.digit d) = true
  /\ Z.of_N (N_of_ascii (strconv.digit d)) - 48 = d
  /\ Ascii.eqb (strconv.digit d) "-"%char = false
  /\ Ascii.eqb (strconv.digit d) "+"%char = false.
Proof.
  intros Hd.
  assert (E : d = 0 \/ d = 1 \/ d = 2 \/ d = 3 \/ d = 4 \/ d = 5 \/ d = 6 \/ d = 7
              \/ d = 8 \/ d = 9) by lia.
  repeat destruct E as [-> | E]; try subst d; repeat split; reflexivity.
Qed.

Lemma ParseUint_digit (d n : Z) (rest : list ascii) :
  0 <= d <= 9 -> 0 <= n -> n * 10 + d <= strconv.maxUint64 ->
  strconv.ParseUint_from (strconv.digit d :: rest) n
  = strconv.ParseUint_from rest (n * 10 + d).
Proof.
  intros Hd Hn Hmax. cbn [strconv.ParseUint_from].
  destruct (digit_spec d Hd) as (-> & -> & _).
  unfold strconv.maxUint64 in *.
  change (2 ^ 64 - 1) with 18446744073709551615 in *.
  change (18446744073709551615 / 10 + 1) with 1844674407370955162.
  destruct (Z.leb_spec 1844674407370955162 n); [lia|].
  unfold u64. change (2 ^ 64) with 18446744073709551616.
  rewrite (Z.mod_small (n * 10)) by lia.
  rewrite (Z.mod_small (n * 10 + d)) by lia.
  destruct (Z.ltb_spec (n * 10 + d) (n * 10)); [lia|].
  destruct (Z.ltb_spec 18446744073709551615 (n * 10 + d)); [lia|].
  reflexivity.
Qed.

Lemma formatBits_spec (slots : nat) :
  forall (u : Z) (a : list ascii),
  (0 < slots)%nat -> 0 <= u < 10 ^ Z.of_nat slots ->
  exists c ds,
    strconv.formatBits slots u a = ((c :: ds) ++ a)%list
    /\ Ascii.eqb c "-"%char = false /\ Ascii.eqb c "+"%char = false
    /\ forall n rest,
         0 <= n -> n * 10 ^ Z.of_nat (length (c :: ds)) + u <= strconv.maxUint64 ->
         strconv.ParseUint_from ((c :: ds) ++ rest)%list n
         = strconv.ParseUint_from rest (n * 10 ^ Z.of_nat (length (c :: ds)) + u).
Proof.
  induction slots as [|slots IH]; intros u a Hpos Hu; [lia|].
  cbn [strconv.formatBits].
  destruct (Z.leb_spec 10 u) as [Hbig | Hsmall].
  - assert (Hslots : (0 < slots)%nat).
    { destruct slots; [|lia]. change (10 ^ Z.of_nat 1) with 10 in Hu. lia. }
    assert (Hd : 0 <= u - u / 10 * 10 <= 9) by (Z.div_mod_to_equations; lia).
    destruct (IH (u / 10) (strconv.digit (u - u / 10 * 10) :: a)) as
      (c & ds & Hfmt & Hm & Hp & Hparse); [assumption| |].
    { replace (Z.of_nat (S slots)) with (1 + Z.of_nat slots) in Hu by lia.
      rewrite Z.pow_add_r in Hu by lia. change (10 ^ 1) with 10 in Hu.
      split; [apply Z.div_pos; lia|]. apply Z.div_lt_upper_bound; lia. }
    exists c, (ds ++ [strconv.digit (u - u / 10 * 10)])%list.
    split. { rewrite Hfmt. cbn [app]. rewrite <- app_assoc. reflexivity. }
    split; [assumption|]. split; [assumption|].
    intros n rest Hn Hmax.
    assert (Hlen : Z.of_nat (length (c :: ds ++ [strconv.digit (u - u / 10 * 10)])%list)
                   = Z.of_nat (length (c :: ds)) + 1).
    { cbn [length]. rewrite length_app. cbn [length]. lia. }
    rewrite Hlen in *. rewrite Z.pow_add_r in * by lia. change (10 ^ 1) with 10 in *.
    set (k := 10 ^ Z.of_nat (length (c :: ds))) in *.
    assert (Hk : 0 < k) by (apply Z.pow_pos_nonneg; lia).
    replace ((c :: ds ++ [strconv.digit (u - u / 10 * 10)]) ++ rest)%list
      with ((c :: ds) ++ strconv.digit (u - u / 10 * 10) :: rest)%list
      by (cbn [app]; rewrite <- app_assoc; reflexivity).
    assert (Hq : n * k * 10 + u / 10 * 10 + (u - u / 10 * 10) = n * (k * 10) + u) by lia.
    rewrite Hparse; [|assumption|].
    2:{ unfold strconv.maxUint64 in *. Z.div_mod_to_equations. nia. }
    rewrite ParseUint_digit; [f_equal; lia|assumption| |lia].
    apply Z.add_nonneg_nonneg; [nia|apply Z.div_pos; lia].
  - destruct (digit_spec u ltac:(lia)) as (_ & _ & Hm & Hp).
    exists (strconv.digit u), []. split; [reflexivity|].
    split; [assumption|]. split; [assumption|].
    intros n rest Hn Hmax. cbn [length app] in *.
    change (10 ^ Z.of_nat 1) with 10 in *.
    apply ParseUint_digit; lia.
Qed.

(** Parsing what [FormatInt] printed gives the number back. *)
Lemma ParseInt_FormatInt (i : Z) :
  MinInt64 <= i <= MaxInt64 ->
  strconv.ParseInt (strconv.FormatInt i) = (i, None).
Proof.
  unfold MinInt64, MaxInt64. intros Hi.
  unfold strconv.FormatInt, strconv.ParseInt.
  destruct (Z.ltb_spec i 0) as [Hneg | Hpos].
  - rewrite list_ascii_of_string_of_list_ascii.
    assert (Hu : u64 (- i) = - i) by (unfold u64; apply Z.mod_small; lia).
    rewrite Hu.
    destruct (formatBits_spec 65 (- i) []) as (c & ds & Hfmt & _ & _ & Hparse);
      [lia | split; [lia|] |].
    { eapply Z.le_lt_trans with (2 ^ 63); [lia|]. vm_compute. reflexivity. }
    rewrite Hfmt, app_nil_r.
    change (Ascii.eqb "-" "-") with true. change (Ascii.eqb "-" "+") with false.
    cbn [orb negb andb]. unfold strconv.ParseUint.
    specialize (Hparse 0 [] ltac:(lia)). rewrite app_nil_r in Hparse.
    rewrite Hparse by (unfold strconv.maxUint64; lia).
    cbn [strconv.ParseUint_from]. rewrite Z.mul_0_l, Z.add_0_l.
    destruct (Z.ltb_spec (2 ^ 63) (- i)); [lia|].
    f_equal. lia.
  - rewrite list_ascii_of_string_of_list_ascii.
    assert (Hu : u64 i = i) by (unfold u64; apply Z.mod_small; lia).
    rewrite Hu.
    destruct (formatBits_spec 65 i []) as (c & ds & Hfmt & Hm & Hp & Hparse);
      [lia | split; [lia|] |].
    { eapply Z.le_lt_trans with (2 ^ 63); [lia|]. vm_compute. reflexivity. }
    rewrite Hfmt, app_nil_r. rewrite Hm, Hp. cbn [orb negb andb].
    unfold strconv.ParseUint.
    specialize (Hparse 0 [] ltac:(lia)). rewrite app_nil_r in Hparse.
    rewrite Hparse by (unfold strconv.maxUint64; lia).
    cbn [strconv.ParseUint_from]. rewrite Z.mul_0_l, Z.add_0_l.
    destruct (Z.leb_spec (2 ^ 63) i); [lia|]. reflexivity.
Qed.

Lemma string2ll_FormatInt (i : Z) :
  MinInt64 <= i <= MaxInt64 -> redis.string2ll (strconv.FormatInt i) = Some i.
Proof.
  intros Hi. unfold redis.string2ll. rewrite ParseInt_FormatInt by assumption.
  rewrite String.eqb_refl. reflexivity.
Qed.


(** ** The Redis backend, request by request *)

Section RedisGet.

Variable r : Redis.Redis.
Variable now : time.Time.
Variable key : string.
Variable c : redis.Client.
Variable h : gmap string string.
Variable n : Z.

Let path := Redis.prefix r ++ key.

Hypothesis Hup : redis.up c = true.
Hypothesis Hkey : Redis.escape_MatchString key = false.
Hypothesis Hhash : redis.hash_at (redis.db c) path = Some h.
Hypothesis Hcount :
  match h !! Redis.metaCount with
  | Some v => redis.string2ll v = Some n
  | None => n = 0
  end.
Hypothesis Hroom : MinInt64 <= n + 1 <= MaxInt64.

Lemma Get_spec :
  Redis.Get r now key c =
  (redis.mkClient
     (<[path := redis.VHash (<[Redis.metaCount := strconv.FormatInt (n + 1)]> h)]>
        (redis.db c))
     true
     (redis.sent c ++ [redis.HGET path Redis.metaUrl; redis.HGET path Redis.metaUntil;
                       redis.HINCRBY path Redis.metaCount 1]),
   match h !! Redis.metaUrl, h !! Redis.metaUntil with
   | Some u, Some t =>
       let ttlTo := (strconv.ParseInt t).1 in
       if negb (ttlTo =? 0) && (ttlTo <? time.Unix now)
       then ("", Some Redis.ErrTTL) else (u, None)
   | _, _ => ("", Some redis_Nil)
   end).
Proof.
  unfold Redis.Get. rewrite Hkey.
  unfold redis.Pipelined, redis.process. rewrite Hup.
  cbn [redis.exec_all redis.exec]. fold path.
  do 2 (rewrite Hhash; cbv beta iota zeta).
  assert (Hn : match h !! Redis.metaCount with
               | Some v => redis.string2ll v
               | None => Some 0
               end = Some n).
  { destruct (h !! Redis.metaCount); [assumption | congruence]. }
  rewrite Hhash, Hn.
  destruct (Z.leb_spec MinInt64 (n + 1)); [|lia].
  destruct (Z.leb_spec (n + 1) MaxInt64); [|lia].
  cbv beta iota zeta. cbn [andb].
  destruct (h !! Redis.metaUrl) as [u|], (h !! Redis.metaUntil) as [t|];
    cbn [redis.firstCmdsErr redis.err_of nth redis.Int64 redis.Val]; try reflexivity.
  destruct (strconv.ParseInt t) as [ttlTo e]. cbn [fst].
  destruct (negb (ttlTo =? 0) && (ttlTo <? time.Unix now)); reflexivity.
Qed.

End RedisGet.

Lemma append_inj (p a b : string) : p ++ a = p ++ b -> a = b.
Proof.
  induction p as [|x p IH]; cbn; intros E; [assumption|].
  injection E as E. auto.
Qed.

Lemma Std_no_colon (v : Z) :
  0 <= v < 64 -> Ascii.eqb (base64.encode base64.RawStdEncoding v) ":"%char = false.
Proof.
  intros Hv. apply negb_true_iff. revert v Hv.
  apply (below_64 (fun v => negb (Ascii.eqb (base64.encode base64.RawStdEncoding v) ":"))).
  vm_compute. reflexivity.
Qed.

(** A key never names the counter. *)
Lemma key_not_counter (bytes : list Z) :
  base64.EncodeToString base64.RawStdEncoding bytes <> "meta:count".
Proof.
  unfold base64.EncodeToString. intros E.
  apply (f_equal list_ascii_of_string) in E.
  rewrite list_ascii_of_string_of_list_ascii in E.
  pose proof (Encode_chars base64.RawStdEncoding bytes) as Hall.
  rewrite E in Hall. cbn [list_ascii_of_string] in Hall.
  do 4 apply Forall_cons_1 in Hall as [_ Hall].
  apply Forall_cons_1 in Hall as [(v & Hv & Hc) _].
  pose proof (Std_no_colon v Hv) as Hne. rewrite <- Hc in Hne. discriminate.
Qed.

Lemma path_not_counter (r : Redis.Redis) (bytes : list Z) :
  Redis.prefix r ++ base64.EncodeToString base64.RawStdEncoding bytes
  <> View.counterKey r.
Proof.
  unfold View.counterKey. intros E. apply append_inj in E.
  exact (key_not_counter bytes E).
Qed.

Lemma hash_at_insert_ne (db : gmap string redis.value) (k k' : string) (v : redis.value) :
  k <> k' -> redis.hash_at (<[k := v]> db) k' = redis.hash_at db k'.
Proof.
  intros Hne. unfold redis.hash_at. rewrite lookup_insert_ne by assumption. reflexivity.
Qed.

Lemma hash_at_insert (db : gmap string redis.value) (k : string) (h : gmap string string) :
  redis.hash_at (<[k := redis.VHash h]> db) k = Some h.
Proof. unfold redis.hash_at. rewrite lookup_insert_eq. reflexivity. Qed.

Lemma Incr_spec (r : Redis.Redis) (c : redis.Client) (v : Z) :
  redis.up c = true -> View.counter r c = Some v -> MinInt64 <= v + 1 <= MaxInt64 ->
  redis.Incr (Redis.prefix r ++ "meta:count") c =
  (redis.mkClient
     (<[View.counterKey r := redis.VString (strconv.FormatInt (v + 1))]> (redis.db c))
     true (redis.sent c ++ [redis.INCR (View.counterKey r)]),
   (v + 1, None)).
Proof.
  intros Hup Hv Hroom. unfold View.counter in Hv.
  unfold redis.Incr, redis.process. rewrite Hup.
  cbn [redis.exec_all redis.exec]. fold (View.counterKey r).
  destruct (redis.db c !! View.counterKey r) as [[s|h]|]; [| discriminate |].
  - rewrite Hv. destruct (Z.ltb_spec v MaxInt64); [reflexivity | lia].
  - injection Hv as <-. reflexivity.
Qed.

Section RedisSave.

Variable r : Redis.Redis.
Variable now : time.Time.
Variable value : string.
Variable ttl : time.Duration.
Variable c : redis.Client.
Variable v : Z.
Variable bytes : list Z.
Variable h0 : gmap string string.

Let key := base64.EncodeToString base64.RawStdEncoding bytes.
Let path := Redis.prefix r ++ key.
Let until :=
  if ttl =? 0 then "0" else strconv.FormatInt (time.Unix (time.Add now ttl)).

Hypothesis Hup : redis.up c = true.
Hypothesis Hcounter : View.counter r c = Some v.
Hypothesis Hroom : MinInt64 <= v + 1 <= MaxInt64.
Hypothesis Hbytes : varintBytes (v + 1) = Returns bytes.
Hypothesis Hpath : redis.hash_at (redis.db c) path = Some h0.

Lemma Save_spec :
  Redis.Save r now value ttl c =
  (redis.mkClient
     (<[path := redis.VHash
                  (<[Redis.metaUntil := until]>
                     (<[Redis.metaCreated := strconv.FormatInt (time.Unix now)]>
                        (<[Redis.metaUrl := value]> h0)))]>
        (<[View.counterKey r := redis.VString (strconv.FormatInt (v + 1))]> (redis.db c)))
     true
     (redis.sent c ++ [redis.INCR (View.counterKey r)]
      ++ [redis.HSET path Redis.metaUrl value;
          redis.HSET path Redis.metaCreated (strconv.FormatInt (time.Unix now));
          redis.HSET path Redis.metaUntil until])%list,
   Returns key).
Proof.
  unfold Redis.Save. rewrite (Incr_spec r c v) by assumption.
  rewrite Hbytes. fold key. fold path. fold until.
  unfold redis.Pipelined, redis.process. cbn [redis.up redis.db redis.sent].
  cbn [redis.exec_all redis.exec].
  assert (Hne : View.counterKey r <> path) by (intros E; exact (path_not_counter r bytes (eq_sym E))).
  rewrite hash_at_insert_ne, Hpath by assumption. cbv beta iota zeta.
  rewrite hash_at_insert. cbv beta iota zeta.
  rewrite hash_at_insert. cbv beta iota zeta.
  rewrite !insert_insert_eq.
  cbn [redis.firstCmdsErr redis.err_of]. rewrite <- app_assoc. reflexivity.
Qed.

End RedisSave.

(** * The claims *)

Lemma clicked_insert (h : gmap string string) (n : Z) :
  MinInt64 <= n <= MaxInt64 ->
  View.clicked (<[Redis.metaCount := strconv.FormatInt n]> h) = n.
Proof.
  intros Hn. unfold View.clicked, Redis.at_. rewrite lookup_insert_eq. unfold default, from_option, id.
  rewrite ParseInt_FormatInt by assumption. reflexivity.
Qed.

(** C1, as the code has it.  A [Get] of the Redis backend on a well-formed
    key sends [HINCRBY count 1] in the same pipeline as the two reads, before
    it looks at the expiry: whenever the request reaches a working server that
    holds a hash (or nothing) under the key, the click count of the key grows
    by exactly one, whatever the lookup then returns; the other fields of the
    record stay as they were. *)
Theorem C1_Get_counts_every_lookup
    (r : Redis.Redis) (now : time.Time) (key : string) (c : redis.Client)
    (h : gmap string string) (n : Z) :
  redis.up c = true ->
  Redis.escape_MatchString key = false ->
  redis.hash_at (redis.db c) (Redis.prefix r ++ key) = Some h ->
  match h !! Redis.metaCount with
  | Some v => redis.string2ll v = Some n
  | None => n = 0
  end ->
  0 <= n < MaxInt64 ->
  View.record r key (Redis.Get r now key c).1
  = Some (<[Redis.metaCount := strconv.FormatInt (n + 1)]> h)
  /\ View.clicked h = n
  /\ View.clicked (<[Redis.metaCount := strconv.FormatInt (n + 1)]> h) = n + 1.
Proof.
  intros Hup Hkey Hhash Hcount Hn.
  assert (Hroom : MinInt64 <= n + 1 <= MaxInt64) by (unfold MinInt64, MaxInt64 in *; lia).
  rewrite (Get_spec r now key c h n) by assumption. cbn [fst].
  split; [|split].
  - unfold View.record. cbn [redis.db]. rewrite lookup_insert_eq. reflexivity.
  - unfold View.clicked, Redis.at_.
    destruct (h !! Redis.metaCount) as [v|]; unfold default, from_option, id.
    + unfold redis.string2ll in Hcount.
      destruct (strconv.ParseInt v) as [m [e|]]; [discriminate|].
      destruct (String.eqb _ v); [|discriminate]. injection Hcount as <-. reflexivity.
    + subst n. reflexivity.
  - apply clicked_insert. assumption.
Qed.

Lemma C1_Get_counts_every_lookup_witness :
  View.record Redis.New "Ag" (Redis.Get Redis.New (Demo.clock 101) "Ag" Demo.saved).1
  = Some (<[Redis.metaCount := strconv.FormatInt (0 + 1)]> Demo.record)
  /\ View.clicked Demo.record = 0
  /\ View.clicked (<[Redis.metaCount := strconv.FormatInt (0 + 1)]> Demo.record) = 0 + 1.
Proof.
  apply (C1_Get_counts_every_lookup Redis.New (Demo.clock 101) "Ag" Demo.saved
           Demo.record 0).
  - reflexivity.
  - reflexivity.
  - vm_compute. reflexivity.
  - reflexivity.
  - unfold MaxInt64. lia.
Defined.

(** C1 as stated fails: the link saved at second 90 runs out at second 100;
    the lookup at second 101 fails with the TTL error, and the click count of
    the key has gone from 0 to 1. *)
Lemma C1_expired_lookup_counts :
  (Redis.Get Redis.New (Demo.clock 101) "Ag" Demo.saved).2 = ("", Some Redis.ErrTTL)
  /\ View.clicked <$> View.record Redis.New "Ag" Demo.saved = Some 0
  /\ View.clicked <$>
       View.record Redis.New "Ag" (Redis.Get Redis.New (Demo.clock 101) "Ag" Demo.saved).1
     = Some 1.
Proof. vm_compute. repeat split; reflexivity. Qed.

(** C2: the code at the boundary.  The link of [Demo.saved] has
    [until = 100].  At second 100 the claim calls it expired
    ([0 < expiresAt <= now]); [Get] of the Redis backend tests
    [now > until] and still returns the URL, while [Info] of the same backend
    tests [until - now > 0] and reports the TTL error.  In the SQLite backend
    [Get] tests [until < now] with no case for 0: the link saved with
    [ttl = 0] is reported as expired. *)
Theorem C2_liveness_differs_from_claim :
  Demo.record !! Redis.metaUntil = Some "100"
  /\ (Redis.Get Redis.New (Demo.clock 100) "Ag" Demo.saved).2 = (Demo.url, None)
  /\ (Redis.Info Redis.New (Demo.clock 100) "Ag" Demo.saved).2
     = (None, Some Redis.ErrTTL)
  /\ (Sqlite3.Save (Demo.clock 90) Demo.url 0 Demo.empty).2 = Returns "Ag"
  /\ sql.until <$> sql.shrtie_url Demo.kept !! 1 = Some 0
  /\ (Sqlite3.Get (Demo.clock 91) "Ag" Demo.kept).2 = ("", Some Sqlite3.ErrTTL).
Proof. vm_compute. repeat split; reflexivity. Qed.

(** [Get] of the Redis backend takes a record for live exactly when its
    [until] is 0 or not before the instant of the read. *)
Lemma Redis_Get_live_iff
    (r : Redis.Redis) (now : time.Time) (key : string) (c : redis.Client)
    (h : gmap string string) (n : Z) (u t : string) :
  redis.up c = true ->
  Redis.escape_MatchString key = false ->
  redis.hash_at (redis.db c) (Redis.prefix r ++ key) = Some h ->
  match h !! Redis.metaCount with
  | Some v => redis.string2ll v = Some n
  | None => n = 0
  end ->
  MinInt64 <= n + 1 <= MaxInt64 ->
  h !! Redis.metaUrl = Some u ->
  h !! Redis.metaUntil = Some t ->
  (Redis.Get r now key c).2 = (u, None)
  <-> (strconv.ParseInt t).1 = 0 \/ time.Unix now <= (strconv.ParseInt t).1.
Proof.
  intros Hup Hkey Hhash Hcount Hroom Hu Ht.
  rewrite (Get_spec r now key c h n) by assumption.
  cbn [snd]. rewrite Hu, Ht. cbv zeta.
  destruct (Z.eqb_spec (strconv.ParseInt t).1 0) as [E0 | E0];
    destruct (Z.ltb_spec (strconv.ParseInt t).1 (time.Unix now)) as [El | El];
    cbn [negb andb]; split; intros H; try reflexivity; try discriminate;
    try (left; assumption); try (right; assumption).
  destruct H; [contradiction | lia].
Qed.

(** [Get] of the SQLite backend never writes, and takes a row for live exactly
    when its [until] is not before the instant of the read: a row with the
    sentinel 0 is expired at every instant after the epoch. *)
Lemma Sqlite3_Get_row
    (now : time.Time) (key : string) (id : Z) (d : sql.DB) (row : sql.row) :
  Sqlite3.toInt64 key = (id, None) ->
  sql.up d = true ->
  sql.shrtie_url d !! id = Some row ->
  Sqlite3.Get now key d
  = (d, if sql.until row <? time.Unix now then ("", Some Sqlite3.ErrTTL)
        else (sql.url row, None)).
Proof.
  intros Hid Hup Hrow. unfold Sqlite3.Get, sql.query. rewrite Hid, Hup, Hrow.
  destruct (sql.until row <? time.Unix now); reflexivity.
Qed.

Lemma Sqlite3_Get_reads_only (now : time.Time) (key : string) (d : sql.DB) :
  (Sqlite3.Get now key d).1 = d.
Proof.
  unfold Sqlite3.Get. destruct (Sqlite3.toInt64 key) as [id [e|]]; [reflexivity|].
  destruct (sql.query id d) as [row|e]; [|reflexivity].
  destruct (sql.until row <? time.Unix now); reflexivity.
Qed.



(** C4: the code at identifier 124.  [Save] of the Redis backend encodes with
    [RawStdEncoding]: with the counter at 123 the key it returns is ["+AE"].
    The key has a ['+'], the expression [escape] matches it, and [Get] of the
    same backend turns the key down. *)
Theorem C4_Redis_key_has_plus :
  (Redis.Save Redis.New (Demo.clock 90) Demo.url 0 Demo.busy).2 = Returns "+AE"
  /\ Redis.escape_MatchString "+AE" = true
  /\ (Redis.Get Redis.New (Demo.clock 91) "+AE"
        (Redis.Save Redis.New (Demo.clock 90) Demo.url 0 Demo.busy).1).2
     = ("", Some Redis.ErrWrongKey).
Proof. vm_compute. repeat split; reflexivity. Qed.

(** The keys of the SQLite backend are made with [RawURLEncoding]: every
    character of a key is in the class [0-9A-Za-z_-]. *)
Lemma Sqlite3_key_URL_safe (bytes : list Z) :
  Redis.escape_MatchString (base64.EncodeToString base64.RawURLEncoding bytes) = false.
Proof.
  unfold Redis.escape_MatchString, base64.EncodeToString.
  rewrite list_ascii_of_string_of_list_ascii.
  apply not_true_is_false. intros E. apply existsb_exists in E as (ch & Hin & Hch).
  pose proof (Encode_chars base64.RawURLEncoding bytes) as Hall.
  rewrite Forall_forall in Hall. apply list_elem_of_In in Hin.
  destruct (Hall ch Hin) as (v & Hv & ->).
  rewrite URL_inClass in Hch by assumption. discriminate.
Qed.

(** C6: the code on a missing row.  [Get] of the SQLite backend answers a
    well-formed key that has no row with the empty URL and a nil error. *)
Theorem C6_Sqlite3_Get_absent_no_error :
  Sqlite3.toInt64 "Ag" = (1, None)
  /\ sql.shrtie_url Demo.empty !! 1 = None
  /\ Sqlite3.Get (Demo.clock 100) "Ag" Demo.empty = (Demo.empty, ("", None)).
Proof. vm_compute. repeat split; reflexivity. Qed.

(** In general: whatever goes wrong with the query, [Get] of the SQLite
    backend returns a nil error. *)
Lemma Sqlite3_Get_absent (now : time.Time) (key : string) (id : Z) (d : sql.DB) :
  Sqlite3.toInt64 key = (id, None) ->
  sql.shrtie_url d !! id = None ->
  Sqlite3.Get now key d = (d, ("", None)).
Proof.
  intros Hid Hrow. unfold Sqlite3.Get, sql.query. rewrite Hid, Hrow.
  destruct (sql.up d); reflexivity.
Qed.

(** The Redis backend returns the error of the pipeline, [redis.Nil] for a
    key with no record. *)
Lemma Redis_Get_absent (r : Redis.Redis) (now : time.Time) (key : string) (c : redis.Client) :
  redis.up c = true ->
  Redis.escape_MatchString key = false ->
  redis.db c !! (Redis.prefix r ++ key) = None ->
  (Redis.Get r now key c).2 = ("", Some redis_Nil).
Proof.
  intros Hup Hkey Habs.
  rewrite (Get_spec r now key c ∅ 0); try assumption.
  - reflexivity.
  - unfold redis.hash_at. rewrite Habs. reflexivity.
  - reflexivity.
  - unfold MinInt64, MaxInt64. lia.
Qed.

(** C8: the code on a long URL.  [Save] of [backend/redis/redis.go] has no
    test of the length: for a URL of 2049 bytes it moves the counter from 0
    to 1 and returns the key.  The version with [maxLength] and the SQLite
    backend return the empty key and leave the store as it was. *)
Theorem C8_Redis_Save_long_url_allocates :
  RedisHMSet.len Demo.long = 2049
  /\ View.counter Redis.New Demo.fresh = Some 0
  /\ (Redis.Save Redis.New (Demo.clock 90) Demo.long 0 Demo.fresh).2 = Returns "Ag"
  /\ View.counter Redis.New (Redis.Save Redis.New (Demo.clock 90) Demo.long 0 Demo.fresh).1
     = Some 1
  /\ RedisHMSet.Save Redis.New (Demo.clock 90) Demo.long 0 Demo.fresh
     = (Demo.fresh, Returns "")
  /\ Sqlite3.Save (Demo.clock 90) Demo.long 0 Demo.empty = (Demo.empty, Returns "").
Proof. vm_compute. repeat split; reflexivity. Qed.

Lemma RedisHMSet_Save_too_long (r : Redis.Redis) (now : time.Time) (value : string)
    (ttl : time.Duration) (c : redis.Client) :
  RedisHMSet.maxLength < RedisHMSet.len value ->
  RedisHMSet.Save r now value ttl c = (c, Returns "").
Proof.
  intros Hlen. unfold RedisHMSet.Save.
  destruct (Z.ltb_spec RedisHMSet.maxLength (RedisHMSet.len value)); [reflexivity | lia].
Qed.

Lemma Sqlite3_Save_too_long (now : time.Time) (value : string) (ttl : time.Duration)
    (d : sql.DB) :
  Sqlite3.maxLength < Sqlite3.len value ->
  Sqlite3.Save now value ttl d = (d, Returns "").
Proof.
  intros Hlen. unfold Sqlite3.Save.
  destruct (Z.ltb_spec Sqlite3.maxLength (Sqlite3.len value)); [reflexivity | lia].
Qed.

Lemma Info_spec (r : Redis.Redis) (now : time.Time) (key : string) (c : redis.Client)
    (h : gmap string string) :
  redis.up c = true ->
  redis.hash_at (redis.db c) (Redis.prefix r ++ key) = Some h ->
  Redis.Info r now key c =
  (redis.mkClient (redis.db c) true
     (redis.sent c ++ [redis.HGETALL (Redis.prefix r ++ key)]),
   if bool_decide (size h = 0%nat) then (None, Some Redis.ErrWrongKey)
   else
     let until := (strconv.ParseInt (Redis.at_ h Redis.metaUntil)).1 in
     let meta (ttl : Z) :=
       (Some (mkMetadata (Redis.at_ h Redis.metaUrl) ttl
                (strconv.ParseInt (Redis.at_ h Redis.metaCount)).1
                (time.FromUnix (strconv.ParseInt (Redis.at_ h Redis.metaCreated)).1)),
        None) in
     if 0 <? i64 (until - time.Unix now) then meta (i64 (until - time.Unix now))
     else if until =? 0 then meta 0
     else (None, Some Redis.ErrTTL)).
Proof.
  intros Hup Hhash. unfold Redis.Info, redis.HGetAll, redis.process.
  rewrite Hup. cbn [redis.exec_all redis.exec]. rewrite Hhash.
  cbv beta iota zeta.
  destruct (bool_decide (size h = 0%nat)); [reflexivity|].
  destruct (0 <? i64 _); [reflexivity|].
  destruct (_ =? 0); reflexivity.
Qed.

(** C9, as the code has it.  [Get] of the Redis backend turns down a key with
    a character outside [0-9A-Za-z_-] with [ErrWrongKey] before it sends
    anything: the client, with the list of the commands sent, is as before,
    and the error is not [redis.Nil], the error of a missing record.  [Info]
    has no such test: it sends [HGETALL] for whatever key it is given, and when
    nothing is stored under the key it returns [ErrWrongKey] as well. *)
Theorem C9_wrong_key
    (r : Redis.Redis) (now : time.Time) (key : string) (c : redis.Client) :
  (Redis.escape_MatchString key = true ->
   Redis.Get r now key c = (c, ("", Some Redis.ErrWrongKey))
   /\ Redis.ErrWrongKey <> redis_Nil)
  /\ (redis.up c = true ->
      redis.db c !! (Redis.prefix r ++ key) = None ->
      Redis.Info r now key c
      = (redis.mkClient (redis.db c) true
           (redis.sent c ++ [redis.HGETALL (Redis.prefix r ++ key)]),
         (None, Some Redis.ErrWrongKey))).
Proof.
  split.
  - intros Hkey. unfold Redis.Get. rewrite Hkey. split; [reflexivity | discriminate].
  - intros Hup Habs. rewrite (Info_spec r now key c ∅ Hup).
    + reflexivity.
    + unfold redis.hash_at. rewrite Habs. reflexivity.
Qed.

Lemma C9_wrong_key_witness :
  (Redis.Get Redis.New (Demo.clock 100) "a:b" Demo.saved
   = (Demo.saved, ("", Some Redis.ErrWrongKey))
   /\ Redis.ErrWrongKey <> redis_Nil)
  /\ Redis.Info Redis.New (Demo.clock 100) "a:b" Demo.saved
     = (redis.mkClient (redis.db Demo.saved) true
          (redis.sent Demo.saved ++ [redis.HGETALL (Redis.prefix Redis.New ++ "a:b")]),
        (None, Some Redis.ErrWrongKey)).
Proof.
  destruct (C9_wrong_key Redis.New (Demo.clock 100) "a:b" Demo.saved) as [HGet HInfo].
  split.
  - apply HGet. reflexivity.
  - apply HInfo; [reflexivity | vm_compute; reflexivity].
Defined.

(** C9 as stated fails for [Info]: for the well-formed key ["Zz"], which has
    no record, [Info] returns the very error [Get] returns for the malformed
    key ["a:b"]; and for the malformed key ["meta:count"] [Info] goes to the
    server, which answers with an error of its own. *)
Lemma C9_Info_conflates_errors :
  Redis.escape_MatchString "Zz" = false
  /\ redis.db Demo.busy !! "shrtie/Zz" = None
  /\ (Redis.Info Redis.New (Demo.clock 100) "Zz" Demo.busy).2
     = (None, Some Redis.ErrWrongKey)
  /\ (Redis.Get Redis.New (Demo.clock 100) "a:b" Demo.busy).2
     = ("", Some Redis.ErrWrongKey)
  /\ Redis.escape_MatchString "meta:count" = true
  /\ redis.sent (Redis.Info Redis.New (Demo.clock 100) "meta:count" Demo.busy).1
     = [redis.HGETALL "shrtie/meta:count"]
  /\ (Redis.Info Redis.New (Demo.clock 100) "meta:count" Demo.busy).2
     = (None, Some (redis_Error
          "WRONGTYPE Operation against a key holding the wrong kind of value")).
Proof. vm_compute. repeat split; reflexivity. Qed.

(** C10: in the save handler the TTL worked out from [Expires] is
    overwritten by the one worked out from [TTL].  Two requests that differ in
    [Expires] alone get the same answer and leave the same store, for every
    backend: the backend is called with the same URL and the same ttl. *)
Theorem C10_Expires_is_ignored
    {S : Type} (backend : shrtie.GetSaver S)
    (concatURL : string -> bool -> string -> string -> string)
    (now : time.Time) (contentType host url : string) (tls : bool)
    (link : string) (ttl : Z) (expires1 expires2 : time.Time) (s : S) :
  shrtie.SaveHandler concatURL now
    (shrtie.mkRequest contentType (Some (shrtie.mkEntry link ttl expires1)) host tls url) s
  = shrtie.SaveHandler concatURL now
      (shrtie.mkRequest contentType (Some (shrtie.mkEntry link ttl expires2)) host tls url) s.
Proof. reflexivity. Qed.





(** ** Calls of [Save] that run at the same time *)

Lemma omap_shorter {A B : Type} (f : A -> option B) (l : list A) :
  (length (omap f l) <= length l)%nat.
Proof.
  induction l as [|a l IH]; cbn; [lia|]. destruct (f a); cbn; lia.
Qed.

Lemma identifiers_insert_same (calls : list Concurrent.call) (i : nat)
    (t t' : Concurrent.call) :
  calls !! i = Some t ->
  Concurrent.identifier t' = Concurrent.identifier t ->
  Concurrent.identifiers (<[i := t']> calls) = Concurrent.identifiers calls.
Proof.
  intros Hi Hid. unfold Concurrent.identifiers.
  rewrite <- (take_drop_middle calls i t Hi) at 2.
  rewrite insert_take_drop by (eapply lookup_lt_Some; eassumption).
  rewrite !omap_app. cbn [omap list_omap]. rewrite Hid. reflexivity.
Qed.

Lemma identifiers_insert_new (calls : list Concurrent.call) (i : nat)
    (t t' : Concurrent.call) (x : Z) :
  calls !! i = Some t ->
  Concurrent.identifier t = None ->
  Concurrent.identifier t' = Some x ->
  Concurrent.identifiers (<[i := t']> calls) ≡ₚ x :: Concurrent.identifiers calls
  /\ (length (Concurrent.identifiers calls) < length calls)%nat.
Proof.
  intros Hi Hnone Hsome. unfold Concurrent.identifiers.
  rewrite <- (take_drop_middle calls i t Hi) at 2 3 4.
  rewrite insert_take_drop by (eapply lookup_lt_Some; eassumption).
  rewrite !omap_app. cbn [omap list_omap]. rewrite Hnone, Hsome. split.
  - symmetry. apply Permutation_middle.
  - rewrite !length_app. cbn [length].
    pose proof (omap_shorter Concurrent.identifier (take i calls)).
    pose proof (omap_shorter Concurrent.identifier (drop (S i) calls)). lia.
Qed.

Lemma counter_insert (r : Redis.Redis) (c : redis.Client) (n : Z) (u : bool)
    (l : list redis.command) :
  MinInt64 <= n <= MaxInt64 ->
  View.counter r
    (redis.mkClient
       (<[View.counterKey r := redis.VString (strconv.FormatInt n)]> (redis.db c)) u l)
  = Some n.
Proof.
  intros Hn. unfold View.counter. cbn [redis.db]. rewrite lookup_insert_eq.
  apply string2ll_FormatInt. assumption.
Qed.

(** The pipeline of [Save] writes under the key of the record alone. *)
Lemma Pipelined_HSET_other (path k f1 v1 f2 v2 f3 v3 : string) (c : redis.Client) :
  path <> k ->
  let c' := (redis.Pipelined [redis.HSET path f1 v1; redis.HSET path f2 v2;
                              redis.HSET path f3 v3] c).1 in
  redis.db c' !! k = redis.db c !! k /\ redis.up c' = redis.up c.
Proof.
  intros Hne. unfold redis.Pipelined, redis.process.
  destruct (redis.up c) eqn:Hup; [|split; [reflexivity | cbn; congruence]].
  cbn [redis.exec_all redis.exec].
  repeat (destruct (redis.hash_at _ path); cbv beta iota zeta);
    cbn [fst redis.db redis.up]; rewrite ?lookup_insert_ne by assumption;
    split; reflexivity.
Qed.

Lemma step_invariant (r : Redis.Redis) (c0 : Z) (calls : list Concurrent.call)
    (c : redis.Client) (i : nat) (now : time.Time) (t : Concurrent.call) :
  Concurrent.invariant r c0 calls c ->
  calls !! i = Some t ->
  MinInt64 <= c0 -> c0 + Z.of_nat (length calls) <= MaxInt64 ->
  Concurrent.invariant r c0 (<[i := (Concurrent.step r now t c).2]> calls)
            (Concurrent.step r now t c).1.
Proof.
  intros (Hup & Hcounter & Hperm & Hwf) Hi Hmin Hmax.
  destruct t as [value ttl | index key value ttl | index res].
  - (* the INCR *)
    set (k := length (Concurrent.identifiers calls)) in *.
    assert (Hk : (k < length calls)%nat).
    { eapply (identifiers_insert_new calls i _ (Concurrent.Returned (Some 0) Panics) 0);
        [eassumption | reflexivity | reflexivity]. }
    assert (Hroom : MinInt64 <= c0 + Z.of_nat k + 1 <= MaxInt64)
      by (unfold MinInt64, MaxInt64 in *; lia).
    cbn [Concurrent.step].
    rewrite (Incr_spec r c (c0 + Z.of_nat k)) by assumption.
    set (c1 := redis.mkClient _ _ _).
    assert (Hc1 : View.counter r c1 = Some (c0 + Z.of_nat k + 1))
      by (apply counter_insert; assumption).
    assert (Hstep : forall t',
      Concurrent.identifier t' = Some (c0 + Z.of_nat k + 1) -> Concurrent.well_formed t' ->
      Concurrent.invariant r c0 (<[i := t']> calls) c1).
    { intros t' Hid Hwf'.
      destruct (identifiers_insert_new calls i _ t' _ Hi eq_refl Hid) as [Hp _].
      assert (Hlen : length (Concurrent.identifiers (<[i := t']> calls)) = S k).
      { rewrite (Permutation_length Hp). reflexivity. }
      split; [reflexivity|]. split.
      { rewrite Hlen, Hc1. f_equal. lia. }
      split.
      { rewrite Hlen, Hp, seq_S, map_app. cbn [map].
        rewrite Hperm at 1. fold k.
        rewrite <- Permutation_cons_append.
        replace (c0 + Z.of_nat (1 + k)) with (c0 + Z.of_nat k + 1) by lia.
        reflexivity. }
      apply Forall_insert; assumption. }
    destruct (varintBytes (c0 + Z.of_nat k + 1)) as [bytes|]; cbn [fst snd].
    + apply Hstep; [reflexivity|]. exists bytes. reflexivity.
    + apply Hstep; [reflexivity|]. cbn. eauto.
  - (* the pipeline *)
    assert (Hkey : exists bytes, key = base64.EncodeToString base64.RawStdEncoding bytes).
    { rewrite Forall_lookup in Hwf. exact (Hwf i _ Hi). }
    destruct Hkey as [bytes ->].
    cbn [Concurrent.step].
    set (path := Redis.prefix r ++ base64.EncodeToString base64.RawStdEncoding bytes).
    set (until := if ttl =? 0 then "0" else _).
    pose proof (Pipelined_HSET_other path (View.counterKey r)
                  Redis.metaUrl value Redis.metaCreated
                  (strconv.FormatInt (time.Unix now)) Redis.metaUntil until c
                  (path_not_counter r bytes)) as [Hdb Hup'].
    destruct (redis.Pipelined _ c) as [c2 [rs err]]. cbn [fst] in Hdb, Hup'.
    assert (Hinv : forall res,
      Concurrent.invariant r c0 (<[i := Concurrent.Returned (Some index) res]> calls) c2).
    { intros res. unfold Concurrent.invariant.
      rewrite (identifiers_insert_same calls i _ _ Hi) by reflexivity.
      split; [congruence|]. split.
      { unfold View.counter in *. rewrite Hdb. assumption. }
      split; [assumption|].
      apply Forall_insert; [assumption|]. cbn. eauto. }
    destruct err; cbn [fst snd]; apply Hinv.
  - (* nothing left to do *)
    cbn [Concurrent.step fst snd]. rewrite list_insert_id by assumption.
    repeat split; assumption.
Qed.

Lemma run_invariant (r : Redis.Redis) (c0 : Z) (schedule : list (nat * time.Time)) :
  forall (calls : list Concurrent.call) (c : redis.Client),
  Concurrent.invariant r c0 calls c ->
  MinInt64 <= c0 -> c0 + Z.of_nat (length calls) <= MaxInt64 ->
  Concurrent.invariant r c0 (Concurrent.run r schedule calls c).2 (Concurrent.run r schedule calls c).1
  /\ length (Concurrent.run r schedule calls c).2 = length calls.
Proof.
  induction schedule as [|[i now] schedule IH]; intros calls c Hinv Hmin Hmax.
  - cbn. split; [assumption | reflexivity].
  - cbn [Concurrent.run].
    destruct (calls !! i) as [t|] eqn:Hi; [|apply IH; assumption].
    pose proof (step_invariant r c0 calls c i now t Hinv Hi Hmin Hmax) as Hstep.
    destruct (Concurrent.step r now t c) as [c' t']. cbn [fst snd] in Hstep.
    destruct (IH (<[i := t']> calls) c' Hstep Hmin) as [Hrun Hlen].
    { rewrite length_insert. assumption. }
    rewrite length_insert in Hlen. split; assumption.
Qed.

Lemma identifiers_starting (calls : list Concurrent.call) :
  Forall (fun t => Concurrent.starting t = true) calls ->
  Concurrent.identifiers calls = [].
Proof.
  induction 1 as [|t calls Ht _ IH]; [reflexivity|].
  destruct t; try discriminate. exact IH.
Qed.

Lemma identifiers_returned (calls : list Concurrent.call) :
  Forall Concurrent.well_formed calls ->
  Forall (fun t => Concurrent.returned t = true) calls ->
  length (Concurrent.identifiers calls) = length calls.
Proof.
  induction 1 as [|t calls Ht _ IH]; intros Hret; [reflexivity|].
  apply Forall_cons_1 in Hret as [Hr Hret].
  destruct t as [| |[index|] res]; try discriminate.
  - cbn. f_equal. apply IH. assumption.
  - destruct Ht as [x Hx]. discriminate.
Qed.

(** C5: [n] calls of [Save] of the Redis backend, started on a working server
    whose counter stands at [c0] and has room for them, interleaved in any
    way.  At the end of any schedule the identifiers handed out so far are
    pairwise distinct and are exactly [c0 + 1, ..., c0 + k], [k] being their
    number; the counter stands at [c0 + k]; and once every call has returned,
    [k] is the number of the calls. *)
Theorem C5_identifiers_distinct
    (r : Redis.Redis) (schedule : list (nat * time.Time))
    (calls : list Concurrent.call) (c : redis.Client) (c0 : Z) :
  Forall (fun t => Concurrent.starting t = true) calls ->
  redis.up c = true ->
  View.counter r c = Some c0 ->
  MinInt64 <= c0 ->
  c0 + Z.of_nat (length calls) <= MaxInt64 ->
  NoDup (Concurrent.identifiers (Concurrent.run r schedule calls c).2)
  /\ Concurrent.identifiers (Concurrent.run r schedule calls c).2
     ≡ₚ map (fun k => c0 + Z.of_nat k)
          (seq 1 (length (Concurrent.identifiers (Concurrent.run r schedule calls c).2)))
  /\ View.counter r (Concurrent.run r schedule calls c).1
     = Some (c0 + Z.of_nat
               (length (Concurrent.identifiers (Concurrent.run r schedule calls c).2)))
  /\ (Forall (fun t => Concurrent.returned t = true) (Concurrent.run r schedule calls c).2 ->
      length (Concurrent.identifiers (Concurrent.run r schedule calls c).2) = length calls).
Proof.
  intros Hstart Hup Hcounter Hmin Hmax.
  assert (Hinv : Concurrent.invariant r c0 calls c).
  { unfold Concurrent.invariant. rewrite (identifiers_starting calls Hstart). cbn [length seq map].
    rewrite Z.add_0_r. repeat split; try assumption; [reflexivity|].
    eapply Forall_impl; [exact Hstart|]. intros [] H; try discriminate. exact I. }
  destruct (run_invariant r c0 schedule calls c Hinv Hmin Hmax)
    as [(Hup' & Hcounter' & Hperm & Hwf) Hlen].
  split; [|split; [assumption | split; [assumption|]]].
  - rewrite Hperm. apply NoDup_fmap_2; [|apply NoDup_seq].
    intros x y E. lia.
  - intros Hret. rewrite <- Hlen. apply identifiers_returned; assumption.
Qed.

Lemma C5_identifiers_distinct_witness :
  NoDup (Concurrent.identifiers
           (Concurrent.run Redis.New
              [(1%nat, Demo.clock 90); (0%nat, Demo.clock 90); (0%nat, Demo.clock 91);
               (2%nat, Demo.clock 91); (1%nat, Demo.clock 92); (2%nat, Demo.clock 92)]
              [Concurrent.AtIncr "a" 0; Concurrent.AtIncr "b" 0; Concurrent.AtIncr "c" 0]
              Demo.busy).2)
  /\ Concurrent.identifiers
       (Concurrent.run Redis.New
          [(1%nat, Demo.clock 90); (0%nat, Demo.clock 90); (0%nat, Demo.clock 91);
           (2%nat, Demo.clock 91); (1%nat, Demo.clock 92); (2%nat, Demo.clock 92)]
          [Concurrent.AtIncr "a" 0; Concurrent.AtIncr "b" 0; Concurrent.AtIncr "c" 0]
          Demo.busy).2
     = [125; 124; 126].
Proof.
  split.
  - apply (C5_identifiers_distinct Redis.New
             [(1%nat, Demo.clock 90); (0%nat, Demo.clock 90); (0%nat, Demo.clock 91);
              (2%nat, Demo.clock 91); (1%nat, Demo.clock 92); (2%nat, Demo.clock 92)]
             [Concurrent.AtIncr "a" 0; Concurrent.AtIncr "b" 0; Concurrent.AtIncr "c" 0]
             Demo.busy 123).
    + repeat constructor.
    + reflexivity.
    + reflexivity.
    + unfold MinInt64. lia.
    + unfold MaxInt64. cbn [length]. lia.
  - vm_compute. reflexivity.
Defined.

(** * Further properties *)

(** ** Identifiers the 8-byte buffer cannot hold *)

Lemma PutUvarint_from_overflow (slots : nat) :
  forall (buf : list Z) (i : nat) (x : Z),
  2 ^ (7 * Z.of_nat slots) <= x ->
  binary.PutUvarint_from slots buf i x = None.
Proof.
  induction slots as [|slots IH]; intros buf i x Hx; [reflexivity|].
  cbn [binary.PutUvarint_from].
  replace (7 * Z.of_nat (S slots)) with (7 + 7 * Z.of_nat slots) in Hx by lia.
  rewrite Z.pow_add_r in Hx by lia. change (2 ^ 7) with 128 in Hx.
  assert (Hp : 0 < 2 ^ (7 * Z.of_nat slots)) by (apply Z.pow_pos_nonneg; lia).
  destruct (Z.leb_spec 128 x); [|nia].
  apply IH. rewrite Z.shiftr_div_pow2 by lia. change (2 ^ 7) with 128.
  apply Z.div_le_lower_bound; lia.
Qed.

Lemma varintBytes_panics (n : Z) :
  2 ^ 55 <= n < 2 ^ 63 -> varintBytes n = Panics.
Proof.
  intros Hn. unfold varintBytes, binary.PutVarint, binary.PutUvarint.
  assert (Hux : u64 (Z.shiftl (u64 n) 1) = 2 * n).
  { unfold u64. rewrite (Z.mod_small n) by lia.
    rewrite Z.shiftl_mul_pow2 by lia. change (2 ^ 1) with 2.
    rewrite Z.mod_small by lia. lia. }
  rewrite Hux. destruct (Z.ltb_spec n 0); [lia|].
  rewrite PutUvarint_from_overflow; [reflexivity|].
  change (length (replicate 8 0)) with 8%nat.
  change (2 ^ (7 * Z.of_nat 8)) with (2 ^ 56). lia.
Qed.

(** X7: the 8-byte buffer of [Save] holds the identifiers below 2^55.  With
    the counter of the Redis backend at 2^55 - 1 or beyond, [Save] runs the
    [INCR], so the identifier is used up, and then panics in [PutVarint]
    before it writes anything else. *)
Theorem X7_Redis_Save_panics_beyond_buffer (r : Redis.Redis) (now : time.Time) (value : string)
    (ttl : time.Duration) (c : redis.Client) (v : Z) :
  redis.up c = true ->
  View.counter r c = Some v ->
  2 ^ 55 - 1 <= v < MaxInt64 ->
  (Redis.Save r now value ttl c).2 = Panics
  /\ View.counter r (Redis.Save r now value ttl c).1 = Some (v + 1)
  /\ forall k, k <> View.counterKey r ->
       redis.db (Redis.Save r now value ttl c).1 !! k = redis.db c !! k.
Proof.
  intros Hup Hv Hrange. unfold MaxInt64 in Hrange.
  assert (Hroom : MinInt64 <= v + 1 <= MaxInt64) by (unfold MinInt64, MaxInt64; lia).
  unfold Redis.Save. rewrite (Incr_spec r c v) by assumption.
  rewrite varintBytes_panics by lia. cbn [fst snd].
  split; [reflexivity|]. split.
  - apply counter_insert. assumption.
  - intros k Hk. cbn [redis.db]. apply lookup_insert_ne. congruence.
Qed.

(** ** A link of the Redis backend from [Save] to its last second *)

Lemma Add_seconds (t : time.Time) (k : Z) :
  0 <= time.nsec t < 1000000000 ->
  time.Unix (time.Add t (k * time.Second)) = time.Unix t + k.
Proof.
  intros Hn. unfold time.Add, time.Second.
  rewrite Z.quot_mul, Z.rem_mul by lia. rewrite Z.add_0_r.
  destruct (Z.leb_spec 1000000000 (time.nsec t)); [lia|].
  destruct (Z.ltb_spec (time.nsec t) 0); [lia|]. reflexivity.
Qed.

Section RedisLifetime.

Variable r : Redis.Redis.
Variable now : time.Time.
Variable value : string.
Variable k : Z.
Variable c : redis.Client.
Variable v : Z.
Variable bytes : list Z.

Let key := base64.EncodeToString base64.RawStdEncoding bytes.
Let saved := (Redis.Save r now value (k * time.Second) c).1.

Hypothesis Hup : redis.up c = true.
Hypothesis Hcounter : View.counter r c = Some v.
Hypothesis Hv : 0 <= v < MaxInt64.
Hypothesis Hbytes : varintBytes (v + 1) = Returns bytes.
Hypothesis Hfree : redis.db c !! (Redis.prefix r ++ key) = None.
Hypothesis Hkey : Redis.escape_MatchString key = false.
Hypothesis Hk : 0 < k.
Hypothesis Hnow : 0 <= time.Unix now.
Hypothesis Hnsec : 0 <= time.nsec now < 1000000000.
Hypothesis Hend : time.Unix now + k <= MaxInt64.

Let record : gmap string string :=
  <[Redis.metaUntil := strconv.FormatInt (time.Unix now + k)]>
    (<[Redis.metaCreated := strconv.FormatInt (time.Unix now)]>
       (<[Redis.metaUrl := value]> ∅)).

Lemma Save_seconds :
  Redis.Save r now value (k * time.Second) c
  = (saved, Returns key)
  /\ redis.up saved = true
  /\ redis.hash_at (redis.db saved) (Redis.prefix r ++ key) = Some record.
Proof.
  assert (Hroom : MinInt64 <= v + 1 <= MaxInt64) by (unfold MinInt64, MaxInt64 in *; lia).
  assert (Hpath : redis.hash_at (redis.db c) (Redis.prefix r ++ key) = Some ∅).
  { unfold redis.hash_at. rewrite Hfree. reflexivity. }
  unfold saved.
  rewrite (Save_spec r now value (k * time.Second) c v bytes ∅) by assumption.
  cbn [fst]. fold key.
  destruct (Z.eqb_spec (k * time.Second) 0) as [E | _];
    [unfold time.Second in E; lia|].
  rewrite Add_seconds by assumption.
  split; [reflexivity|]. split; [reflexivity|].
  cbn [redis.db]. apply hash_at_insert.
Qed.

(** [Get] finds the link up to and including the second [now + k]. *)
Lemma Save_Get_seconds (now' : time.Time) :
  (Redis.Get r now' key saved).2
  = if time.Unix now + k <? time.Unix now' then ("", Some Redis.ErrTTL)
    else (value, None).
Proof.
  destruct Save_seconds as (_ & Hup' & Hrec).
  assert (Hc0 : match record !! Redis.metaCount with
                | Some v0 => redis.string2ll v0 = Some 0
                | None => 0 = 0
                end).
  { unfold record. rewrite !lookup_insert_ne by discriminate.
    rewrite lookup_empty. reflexivity. }
  assert (Hroom0 : MinInt64 <= 0 + 1 <= MaxInt64) by (unfold MinInt64, MaxInt64; lia).
  rewrite (Get_spec r now' key saved record 0 Hup' Hkey Hrec Hc0 Hroom0).
  cbn [snd].
  assert (Hu : record !! Redis.metaUrl = Some value).
  { unfold record. rewrite !lookup_insert_ne by discriminate. apply lookup_insert_eq. }
  assert (Ht : record !! Redis.metaUntil = Some (strconv.FormatInt (time.Unix now + k)))
    by apply lookup_insert_eq.
  rewrite Hu, Ht. cbv zeta.
  rewrite ParseInt_FormatInt by (unfold MinInt64, MaxInt64 in *; lia). cbn [fst].
  destruct (Z.eqb_spec (time.Unix now + k) 0); [lia|]. cbn [negb andb].
  reflexivity.
Qed.

(** [Info] reports the seconds left, down to 1; from the second [now + k] on
    the link is expired for it. *)
Lemma Save_Info_seconds (now' : time.Time) :
  0 <= time.Unix now' <= MaxInt64 ->
  (Redis.Info r now' key saved).2
  = if time.Unix now' <? time.Unix now + k
    then (Some (mkMetadata value (time.Unix now + k - time.Unix now') 0
                  (time.FromUnix (time.Unix now))), None)
    else (None, Some Redis.ErrTTL).
Proof.
  intros Hnow'. destruct Save_seconds as (_ & Hup' & Hrec).
  rewrite (Info_spec r now' key saved record Hup' Hrec). cbn [snd].
  assert (Hu : Redis.at_ record Redis.metaUrl = value).
  { unfold Redis.at_, record. rewrite !lookup_insert_ne by discriminate.
    rewrite lookup_insert_eq. reflexivity. }
  assert (Ht : Redis.at_ record Redis.metaUntil = strconv.FormatInt (time.Unix now + k)).
  { unfold Redis.at_, record. rewrite lookup_insert_eq. reflexivity. }
  assert (Hcr : Redis.at_ record Redis.metaCreated = strconv.FormatInt (time.Unix now)).
  { unfold Redis.at_, record. rewrite lookup_insert_ne by discriminate.
    rewrite lookup_insert_eq. reflexivity. }
  assert (Hcl : Redis.at_ record Redis.metaCount = "").
  { unfold Redis.at_, record. rewrite !lookup_insert_ne by discriminate.
    rewrite lookup_empty. reflexivity. }
  assert (Hne : size record <> 0%nat).
  { intros E. apply map_size_empty_iff in E.
    assert (H : record !! Redis.metaUntil = None) by (rewrite E; apply lookup_empty).
    unfold record in H. rewrite lookup_insert_eq in H. discriminate. }
  rewrite bool_decide_eq_false_2 by assumption.
  cbv zeta. rewrite Hu, Ht, Hcr, Hcl.
  rewrite !ParseInt_FormatInt by (unfold MinInt64, MaxInt64 in *; lia).
  change (strconv.ParseInt "").1 with 0. cbn [fst].
  assert (Hi : i64 (time.Unix now + k - time.Unix now') = time.Unix now + k - time.Unix now').
  { unfold i64, MaxInt64 in *. rewrite Z.mod_small by lia. lia. }
  rewrite Hi.
  destruct (Z.ltb_spec 0 (time.Unix now + k - time.Unix now'));
    destruct (Z.ltb_spec (time.Unix now') (time.Unix now + k)); try lia; [reflexivity|].
  destruct (Z.eqb_spec (time.Unix now + k) 0); [lia | reflexivity].
Qed.

End RedisLifetime.

(** ** What the requests of the Redis backend leave alone *)

Lemma process_HGETALL_db (key : string) (c : redis.Client) :
  redis.db (redis.process [redis.HGETALL key] c).1 = redis.db c.
Proof.
  unfold redis.process. destruct (redis.up c); [|reflexivity].
  cbn [redis.exec_all redis.exec].
  destruct (redis.hash_at (redis.db c) key); reflexivity.
Qed.

(** X5: [Info] of the Redis backend never writes: for every key and every
    store, the key space after the call is the key space before it. *)
Theorem X5_Redis_Info_reads_only (r : Redis.Redis) (now : time.Time) (key : string)
    (c : redis.Client) :
  redis.db (Redis.Info r now key c).1 = redis.db c
  /\ redis.up (Redis.Info r now key c).1 = redis.up c.
Proof.
  unfold Redis.Info, redis.HGetAll, redis.process.
  destruct (redis.up c) eqn:Hup.
  - cbn [redis.exec_all redis.exec].
    destruct (redis.hash_at (redis.db c) (Redis.prefix r ++ key)) as [h|];
      cbv beta iota zeta; cbn [redis.err_of redis.WRONGTYPE]; [|split; reflexivity].
    destruct (bool_decide (size h = 0%nat)); [split; reflexivity|].
    destruct (0 <? i64 _); [split; reflexivity|].
    destruct (_ =? 0); split; reflexivity.
  - cbn [map redis.err_of]. split; [reflexivity | cbn; congruence].
Qed.

(** X6: [Get] of the Redis backend writes nothing but the [count] field
    under its own key: every other key of the store is as before, and a
    record under the key keeps all its other fields, whatever the store and
    whatever the call returns. *)
Theorem X6_Redis_Get_writes_count_only (r : Redis.Redis) (now : time.Time) (key : string)
    (c : redis.Client) :
  (forall k, k <> Redis.prefix r ++ key ->
     redis.db (Redis.Get r now key c).1 !! k = redis.db c !! k)
  /\ (forall h, View.record r key c = Some h ->
        exists h', View.record r key (Redis.Get r now key c).1 = Some h'
                   /\ forall f, f <> Redis.metaCount -> h' !! f = h !! f).
Proof.
  unfold Redis.Get.
  destruct (Redis.escape_MatchString key).
  { split; [reflexivity|]. intros h Hh. exists h. split; [assumption | reflexivity]. }
  unfold redis.Pipelined, redis.process.
  destruct (redis.up c) eqn:Hup.
  2:{ cbn [map redis.firstCmdsErr redis.err_of fst redis.db].
      split; [reflexivity|]. intros h Hh. exists h. split; [assumption | reflexivity]. }
  cbn [redis.exec_all redis.exec].
  set (path := Redis.prefix r ++ key).
  destruct (redis.hash_at (redis.db c) path) as [h0|] eqn:Hhash; cbv beta iota zeta.
  2:{ rewrite Hhash. cbv beta iota zeta. rewrite Hhash. cbv beta iota zeta.
      cbn [redis.firstCmdsErr redis.err_of redis.WRONGTYPE fst redis.db].
      split; [reflexivity|]. intros h Hh. exists h. split; [assumption | reflexivity]. }
  rewrite Hhash. cbv beta iota zeta. rewrite Hhash.
  assert (Hdone : forall d rs,
    (d = redis.db c \/
     exists n, d = <[path := redis.VHash (<[Redis.metaCount := strconv.FormatInt n]> h0)]>
                     (redis.db c)) ->
    forall res : redis.Client * (string * option error),
    res.1 = redis.mkClient d true rs ->
    (forall k, k <> path -> redis.db res.1 !! k = redis.db c !! k)
    /\ (forall h, View.record r key c = Some h ->
          exists h', View.record r key res.1 = Some h'
                     /\ forall f, f <> Redis.metaCount -> h' !! f = h !! f)).
  { intros d rs Hd res ->. cbn [redis.db]. split.
    - intros k Hk. destruct Hd as [-> | [n ->]]; [reflexivity|].
      apply lookup_insert_ne. congruence.
    - intros h Hh. unfold View.record in *. fold path in Hh |- *. cbn [redis.db].
      destruct Hd as [-> | [n ->]].
      + exists h. split; [assumption | reflexivity].
      + rewrite lookup_insert_eq. eexists. split; [reflexivity|].
        intros f Hf. rewrite lookup_insert_ne by congruence.
        unfold redis.hash_at in Hhash.
        destruct (redis.db c !! path) as [[s|hh]|]; try discriminate.
        congruence. }
  destruct (match h0 !! Redis.metaCount with
            | Some v => redis.string2ll v
            | None => Some 0
            end) as [n|]; cbv beta iota zeta.
  - destruct ((MinInt64 <=? n + 1) && (n + 1 <=? MaxInt64)); cbv beta iota zeta.
    + destruct (redis.firstCmdsErr _); cbv beta iota zeta.
      * eapply Hdone; [right; eexists; reflexivity | reflexivity].
      * destruct (negb _ && _); (eapply Hdone; [right; eexists; reflexivity | reflexivity]).
    + destruct (redis.firstCmdsErr _); cbv beta iota zeta.
      * eapply Hdone; [left; reflexivity | reflexivity].
      * destruct (negb _ && _); (eapply Hdone; [left; reflexivity | reflexivity]).
  - destruct (redis.firstCmdsErr _); cbv beta iota zeta.
    + eapply Hdone; [left; reflexivity | reflexivity].
    + destruct (negb _ && _); (eapply Hdone; [left; reflexivity | reflexivity]).
Qed.

(** X3: [Get] of the Redis backend called any number of times on a key, at
    any instants: whatever the calls return, the click count of the key ends
    up higher by their number, and no other field of the record changes. *)
Theorem X3_Redis_lookups_add_up (r : Redis.Redis) (key : string) (times : list time.Time) :
  forall (c : redis.Client) (h : gmap string string) (n : Z),
  redis.up c = true ->
  Redis.escape_MatchString key = false ->
  redis.hash_at (redis.db c) (Redis.prefix r ++ key) = Some h ->
  match h !! Redis.metaCount with
  | Some v => redis.string2ll v = Some n
  | None => n = 0
  end ->
  0 <= n -> n + Z.of_nat (length times) <= MaxInt64 ->
  exists h',
    redis.hash_at (redis.db (Sequence.lookups r key times c)) (Redis.prefix r ++ key)
    = Some h'
    /\ View.clicked h' = n + Z.of_nat (length times)
    /\ forall f, f <> Redis.metaCount -> h' !! f = h !! f.
Proof.
  induction times as [|now times IH]; intros c h n Hup Hkey Hhash Hcount Hn Hmax.
  - exists h. cbn [Sequence.lookups length]. split; [assumption|].
    split; [|reflexivity]. rewrite Z.add_0_r.
    unfold View.clicked, Redis.at_.
    destruct (h !! Redis.metaCount) as [v|]; unfold default, from_option, id.
    + unfold redis.string2ll in Hcount.
      destruct (strconv.ParseInt v) as [m [e|]]; [discriminate|].
      destruct (String.eqb _ v); [|discriminate]. injection Hcount as <-. reflexivity.
    + subst n. reflexivity.
  - cbn [Sequence.lookups length] in *.
    assert (Hroom : MinInt64 <= n + 1 <= MaxInt64) by (unfold MinInt64, MaxInt64 in *; lia).
    rewrite (Get_spec r now key c h n) by assumption. cbn [fst].
    set (h1 := <[Redis.metaCount := strconv.FormatInt (n + 1)]> h).
    destruct (IH (redis.mkClient
                    (<[Redis.prefix r ++ key := redis.VHash h1]> (redis.db c)) true
                    (redis.sent c ++ [redis.HGET (Redis.prefix r ++ key) Redis.metaUrl;
                                      redis.HGET (Redis.prefix r ++ key) Redis.metaUntil;
                                      redis.HINCRBY (Redis.prefix r ++ key) Redis.metaCount 1]))
                h1 (n + 1)) as (h' & Hh' & Hclicked & Hrest).
    + reflexivity.
    + assumption.
    + cbn [redis.db]. apply hash_at_insert.
    + unfold h1. rewrite lookup_insert_eq. apply string2ll_FormatInt. assumption.
    + lia.
    + lia.
    + exists h'. split; [assumption|]. split; [lia|].
      intros f Hf. rewrite (Hrest f Hf). unfold h1.
      apply lookup_insert_ne. congruence.
Qed.

(** X4: [Get] of the Redis backend on a well-formed key with nothing stored
    under it fails with [redis.Nil], yet its [HINCRBY] has made a hash with
    a count of 1 under the key.  Before the lookup [Info] answers the key
    with [ErrWrongKey]; after it [Info] reports a link with the empty URL and
    one click. *)
Theorem X4_Redis_failed_lookup_leaves_record (r : Redis.Redis) (now now' : time.Time) (key : string)
    (c : redis.Client) :
  redis.up c = true ->
  Redis.escape_MatchString key = false ->
  redis.db c !! (Redis.prefix r ++ key) = None ->
  0 <= time.Unix now' <= MaxInt64 ->
  (Redis.Info r now' key c).2 = (None, Some Redis.ErrWrongKey)
  /\ (Redis.Get r now key c).2 = ("", Some redis_Nil)
  /\ (Redis.Info r now' key (Redis.Get r now key c).1).2
     = (Some (mkMetadata "" 0 1 (time.FromUnix 0)), None).
Proof.
  intros Hup Hkey Habs Hnow'.
  assert (Hhash : redis.hash_at (redis.db c) (Redis.prefix r ++ key) = Some ∅).
  { unfold redis.hash_at. rewrite Habs. reflexivity. }
  split; [|split].
  - rewrite (Info_spec r now' key c ∅ Hup Hhash). reflexivity.
  - rewrite (Get_spec r now key c ∅ 0); try assumption; try reflexivity.
    unfold MinInt64, MaxInt64. lia.
  - rewrite (Get_spec r now key c ∅ 0); try assumption; try reflexivity;
      [|unfold MinInt64, MaxInt64; lia].
    cbn [fst].
    set (h1 := <[Redis.metaCount := strconv.FormatInt (0 + 1)]> (∅ : gmap string string)).
    set (c1 := redis.mkClient _ true _).
    rewrite (Info_spec r now' key c1 h1 eq_refl); [|cbn [redis.db]; apply hash_at_insert].
    cbn [snd].
    assert (Hi : i64 (0 - time.Unix now') = - time.Unix now').
    { unfold i64, MaxInt64 in *. rewrite Z.mod_small by lia. lia. }
    change (bool_decide (size h1 = 0%nat)) with false.
    change (Redis.at_ h1 Redis.metaUntil) with "".
    change (Redis.at_ h1 Redis.metaUrl) with "".
    change (Redis.at_ h1 Redis.metaCreated) with "".
    change (Redis.at_ h1 Redis.metaCount) with "1".
    change (strconv.ParseInt "").1 with 0. change (strconv.ParseInt "1").1 with 1.
    cbv zeta. rewrite Hi.
    destruct (Z.ltb_spec 0 (- time.Unix now')); [lia|]. reflexivity.
Qed.

(** ** The two versions of [Save] of the Redis backend *)

(** One [HMSET] of the three fields leaves what the three [HSET]s of the
    pipeline leave, and fails when they fail. *)
Lemma HMSet_as_Pipelined (path f1 v1 f2 v2 f3 v3 : string) (c : redis.Client) :
  let a := redis.HMSet path [(f1, v1); (f2, v2); (f3, v3)] c in
  let b := redis.Pipelined [redis.HSET path f1 v1; redis.HSET path f2 v2;
                            redis.HSET path f3 v3] c in
  redis.db a.1 = redis.db b.1 /\ redis.up a.1 = redis.up b.1
  /\ (a.2 = None <-> b.2.2 = None).
Proof.
  cbv zeta. unfold redis.HMSet, redis.Pipelined, redis.process.
  destruct (redis.up c) eqn:Hup; [|cbn; repeat split; discriminate].
  cbn [redis.exec_all redis.exec].
  destruct (redis.hash_at (redis.db c) path) as [h|] eqn:Hhash; cbv beta iota zeta.
  - repeat (rewrite hash_at_insert; cbv beta iota zeta).
    rewrite !insert_insert_eq.
    cbn [fst snd redis.db redis.up redis.firstCmdsErr redis.err_of redis.hmset fold_left].
    repeat split; reflexivity.
  - repeat (rewrite Hhash; cbv beta iota zeta).
    cbn [fst snd redis.db redis.up redis.firstCmdsErr redis.err_of redis.WRONGTYPE].
    repeat split; discriminate.
Qed.

(** X8: for a URL of at most 2048 bytes the version of [Save] with
    [maxLength] and one [HMSet] returns what the version of redis.go with the
    pipeline of three [HSet]s returns, and leaves the same key space, on every
    store. *)
Theorem X8_Redis_Save_versions_agree (r : Redis.Redis) (now : time.Time) (value : string)
    (ttl : time.Duration) (c : redis.Client) :
  RedisHMSet.len value <= RedisHMSet.maxLength ->
  (RedisHMSet.Save r now value ttl c).2 = (Redis.Save r now value ttl c).2
  /\ redis.db (RedisHMSet.Save r now value ttl c).1
     = redis.db (Redis.Save r now value ttl c).1
  /\ redis.up (RedisHMSet.Save r now value ttl c).1
     = redis.up (Redis.Save r now value ttl c).1.
Proof.
  intros Hlen. unfold RedisHMSet.Save, Redis.Save.
  destruct (Z.ltb_spec RedisHMSet.maxLength (RedisHMSet.len value)); [lia|].
  destruct (redis.Incr (Redis.prefix r ++ "meta:count") c) as [c1 [index [e|]]];
    [repeat split; reflexivity|].
  destruct (varintBytes index) as [bytes|]; [|repeat split; reflexivity].
  set (path := Redis.prefix r ++ base64.EncodeToString base64.RawStdEncoding bytes).
  set (until := if ttl =? 0 then "0" else _).
  pose proof (HMSet_as_Pipelined path Redis.metaUrl value Redis.metaCreated
                (strconv.FormatInt (time.Unix now)) Redis.metaUntil until c1)
    as (Hdb & Hup & Herr).
  cbv zeta in Hdb, Hup, Herr.
  destruct (redis.HMSet path _ c1) as [a ea].
  destruct (redis.Pipelined _ c1) as [b [rs eb]].
  cbn [fst snd] in *.
  destruct ea as [ea|], eb as [eb|]; cbn [fst snd]; repeat split; try assumption.
  - destruct Herr as [_ Hb]. specialize (Hb eq_refl). discriminate.
  - destruct Herr as [Ha _]. specialize (Ha eq_refl). discriminate.
Qed.

(** ** The SQLite backend: identifiers and rows *)

Lemma max_id_bound (rows : gmap Z sql.row) :
  0 <= sql.max_id rows /\ forall id, is_Some (rows !! id) -> id <= sql.max_id rows.
Proof.
  unfold sql.max_id.
  apply (map_fold_weak_ind
           (fun (m : Z) (rows : gmap Z sql.row) =>
              0 <= m /\ forall id, is_Some (rows !! id) -> id <= m)).
  - split; [lia|]. intros id [x Hx]. rewrite lookup_empty in Hx. discriminate.
  - intros i x m b Hi [Hb IH]. split; [lia|].
    intros id Hid. destruct (decide (i = id)) as [-> | Hne]; [lia|].
    rewrite lookup_insert_ne in Hid by assumption. specialize (IH id Hid). lia.
Qed.

(** The identifier [insert] takes next is not in use. *)
Lemma last_fresh (d : sql.DB) :
  0 <= Z.max (sql.seq d) (sql.max_id (sql.shrtie_url d))
  /\ sql.shrtie_url d !! (Z.max (sql.seq d) (sql.max_id (sql.shrtie_url d)) + 1) = None.
Proof.
  destruct (max_id_bound (sql.shrtie_url d)) as [H0 Hmax]. split; [lia|].
  destruct (sql.shrtie_url d !! _) eqn:E; [|reflexivity].
  specialize (Hmax _ (mk_is_Some _ _ E)). lia.
Qed.

Section SqliteSave.

Variable now : time.Time.
Variable value : string.
Variable ttl : time.Duration.
Variable d : sql.DB.

Let last := Z.max (sql.seq d) (sql.max_id (sql.shrtie_url d)).
Let until := if negb (ttl =? 0) then time.Unix (time.Add now ttl) else 0.
Let row := sql.mkRow value until 0 (time.Unix now).
Let d' := sql.mkDB (<[last + 1 := row]> (sql.shrtie_url d)) (last + 1) true.

Hypothesis Hup : sql.up d = true.
Hypothesis Hlen : Sqlite3.len value <= Sqlite3.maxLength.

Lemma Sqlite3_Save_spec :
  last + 1 < 2 ^ 55 ->
  exists bytes,
    varintBytes (last + 1) = Returns bytes
    /\ Sqlite3.Save now value ttl d
       = (d', Returns (base64.EncodeToString base64.RawURLEncoding bytes))
    /\ Sqlite3.toInt64 (base64.EncodeToString base64.RawURLEncoding bytes)
       = (last + 1, None).
Proof.
  intros Hroom. destruct (last_fresh d) as [H0 _]. fold last in H0.
  destruct (toInt64_Save (last + 1)) as (bytes & Hb & Hdec); [lia|].
  exists bytes. split; [assumption|]. split; [|assumption].
  unfold Sqlite3.Save, sql.insert.
  destruct (Z.ltb_spec Sqlite3.maxLength (Sqlite3.len value)); [lia|].
  rewrite Hup. fold last.
  destruct (Z.ltb_spec last MaxInt64); [|unfold MaxInt64 in *; lia].
  fold until. fold row. fold d'. rewrite Hb. reflexivity.
Qed.

Lemma Sqlite3_Save_panics_spec :
  2 ^ 55 <= last + 1 < 2 ^ 63 ->
  Sqlite3.Save now value ttl d = (d', Panics).
Proof.
  intros Hroom.
  unfold Sqlite3.Save, sql.insert.
  destruct (Z.ltb_spec Sqlite3.maxLength (Sqlite3.len value)); [lia|].
  rewrite Hup. fold last.
  destruct (Z.ltb_spec last MaxInt64); [|unfold MaxInt64 in *; lia].
  fold until. fold row. fold d'. rewrite varintBytes_panics by assumption. reflexivity.
Qed.

End SqliteSave.

(** ** The keys [toInt64] takes *)

Lemma list_ind4 {A : Type} (P : list A -> Prop) :
  P [] -> (forall a, P [a]) -> (forall a b, P [a; b]) -> (forall a b c, P [a; b; c]) ->
  (forall a b c d l, P l -> P (a :: b :: c :: d :: l)) ->
  forall l, P l.
Proof.
  intros P0 P1 P2 P3 P4.
  fix IH 1. intros [|a [|b [|c [|d l]]]];
    [exact P0 | apply P1 | apply P2 | apply P3 | apply P4, IH].
Qed.

Lemma dbuf_URL_inClass (ch : ascii) :
  match base64.dbuf base64.RawURLEncoding ch with Some _ => true | None => false end
  = Redis.inClass ch.
Proof.
  destruct ch as [[] [] [] [] [] [] [] []]; vm_compute; reflexivity.
Qed.

Local Set Warnings "-clear-no-such-hyp".

Lemma decode_is_Some (enc : base64.Encoding) (src : list ascii) :
  is_Some (base64.decode enc src)
  <-> Forall (fun ch => is_Some (base64.dbuf enc ch)) src
      /\ (length src mod 4 <> 1)%nat.
Proof.
  induction src as [|a|a b|a b c|a b c d rest IH] using list_ind4.
  - cbn. split; [intros _; split; [constructor | discriminate] | eauto].
  - cbn. split; [intros [x Hx]; discriminate | intros [_ H]; contradiction].
  - cbn [base64.decode length]. rewrite !Forall_cons, Forall_nil.
    destruct (base64.dbuf enc a) as [da|], (base64.dbuf enc b) as [db|];
      cbn [mbind option_bind]; change (2 mod 4)%nat with 2%nat;
      rewrite <- ?not_eq_None_Some; naive_solver.
  - cbn [base64.decode length]. rewrite !Forall_cons, Forall_nil.
    destruct (base64.dbuf enc a) as [da|], (base64.dbuf enc b) as [db|],
             (base64.dbuf enc c) as [dc|];
      cbn [mbind option_bind]; change (3 mod 4)%nat with 3%nat;
      rewrite <- ?not_eq_None_Some; naive_solver.
  - cbn [base64.decode length].
    replace (S (S (S (S (length rest)))) mod 4)%nat with (length rest mod 4)%nat.
    2:{ replace (S (S (S (S (length rest))))) with (length rest + 1 * 4)%nat by lia.
        symmetry. apply Nat.Div0.mod_add. }
    rewrite !Forall_cons.
    destruct (base64.dbuf enc a) as [da|], (base64.dbuf enc b) as [db|],
             (base64.dbuf enc c) as [dc|], (base64.dbuf enc d) as [dd|],
             (base64.decode enc rest) as [dst|];
      cbn [mbind option_bind]; rewrite <- ?not_eq_None_Some in *; naive_solver.
Qed.

(** X9: [toInt64] takes a key exactly when, once the line breaks are left
    out, every character is in [0-9A-Za-z_-] and the characters do not number
    one more than a multiple of four; any other key gets [ErrWrongKey]. *)
Theorem X9_toInt64_accepts_iff (key : string) :
  ((Sqlite3.toInt64 key).2 = None
  <-> Forall (fun ch => Redis.inClass ch = true)
        (List.filter (fun c => negb (base64.isNewline c)) (list_ascii_of_string key))
      /\ (length (List.filter (fun c => negb (base64.isNewline c))
                    (list_ascii_of_string key)) mod 4 <> 1)%nat)
  /\ ((Sqlite3.toInt64 key).2 = None
      \/ Sqlite3.toInt64 key = (0, Some Sqlite3.ErrWrongKey)).
Proof.
  split.
  2:{ unfold Sqlite3.toInt64.
      destruct (base64.DecodeString base64.RawURLEncoding key); [left | right]; reflexivity. }
  unfold Sqlite3.toInt64, base64.DecodeString.
  set (cs := List.filter _ _).
  pose proof (decode_is_Some base64.RawURLEncoding cs) as Hdec.
  assert (Hclass : Forall (fun ch => is_Some (base64.dbuf base64.RawURLEncoding ch)) cs
                   <-> Forall (fun ch => Redis.inClass ch = true) cs).
  { apply Forall_iff. intros ch. rewrite <- dbuf_URL_inClass.
    destruct (base64.dbuf base64.RawURLEncoding ch); split; eauto; try discriminate.
    intros [x Hx]. discriminate. }
  rewrite <- Hclass, <- Hdec.
  destruct (base64.decode base64.RawURLEncoding cs); cbn [snd]; split; eauto;
    try discriminate. intros [x Hx]. discriminate.
Qed.

(** X10: [Get] and [Info] of the SQLite backend turn down, with
    [ErrWrongKey] and without a query, every key that has a character which
    is neither a line break nor in [0-9A-Za-z_-]; the database is as
    before. *)
Theorem X10_Sqlite3_wrong_key (now : time.Time) (key : string) (ch : ascii) (d : sql.DB) :
  In ch (list_ascii_of_string key) ->
  base64.isNewline ch = false ->
  Redis.inClass ch = false ->
  Sqlite3.Get now key d = (d, ("", Some Sqlite3.ErrWrongKey))
  /\ Sqlite3.Info now key d = (d, (None, Some Sqlite3.ErrWrongKey)).
Proof.
  intros Hin Hnl Hclass.
  assert (Hrej : Sqlite3.toInt64 key = (0, Some Sqlite3.ErrWrongKey)).
  { unfold Sqlite3.toInt64, base64.DecodeString.
    destruct (base64.decode _ _) as [buf|] eqn:E; [|reflexivity].
    destruct (proj1 (decode_is_Some _ _) (mk_is_Some _ _ E)) as [HF _].
    rewrite Forall_forall in HF.
    assert (Hch : is_Some (base64.dbuf base64.RawURLEncoding ch)).
    { apply HF. apply list_elem_of_In, filter_In. split; [assumption|].
      rewrite Hnl. reflexivity. }
    pose proof (dbuf_URL_inClass ch) as Hc. destruct Hch as [x Hx].
    rewrite Hx in Hc. congruence. }
  unfold Sqlite3.Get, Sqlite3.Info. rewrite Hrej. split; reflexivity.
Qed.

(** ** Keys that name the same link *)

Lemma Uvarint_from_app (l rest : list Z) :
  forall i x s,
  (binary.Uvarint_from l i x s).2 <> 0 ->
  binary.Uvarint_from (l ++ rest)%list i x s = binary.Uvarint_from l i x s.
Proof.
  induction l as [|b l IH]; intros i x s Hn; [cbn in Hn; contradiction|].
  cbn [app binary.Uvarint_from] in *.
  destruct (b <? 128); [reflexivity|]. apply IH. assumption.
Qed.

Lemma Varint_app (bytes rest : list Z) (n : Z) :
  (0 < length bytes)%nat ->
  binary.Varint bytes = (n, Z.of_nat (length bytes)) ->
  binary.Varint (bytes ++ rest)%list = (n, Z.of_nat (length bytes)).
Proof.
  intros Hlen Hv. unfold binary.Varint, binary.Uvarint in *.
  rewrite Uvarint_from_app; [assumption|].
  destruct (binary.Uvarint_from bytes 0 0 0) as [ux k]. cbn [snd].
  injection Hv as _ Hk. lia.
Qed.

(** X11: a key is not the only name of its link.  [toInt64] reads the first
    varint of the decoded bytes and drops the rest: the bytes of an
    identifier followed by any further bytes encode to a different key that
    [toInt64] maps to the same identifier, and [Get] answers both keys
    alike. *)
Theorem X11_toInt64_many_keys_one_link (n : Z) (rest : list Z) :
  0 <= n < 2 ^ 55 ->
  Forall (fun b => 0 <= b < 256) rest ->
  rest <> [] ->
  exists bytes,
    varintBytes n = Returns bytes
    /\ base64.EncodeToString base64.RawURLEncoding (bytes ++ rest)%list
       <> base64.EncodeToString base64.RawURLEncoding bytes
    /\ Sqlite3.toInt64 (base64.EncodeToString base64.RawURLEncoding (bytes ++ rest)%list)
       = (n, None)
    /\ forall now d,
         Sqlite3.Get now (base64.EncodeToString base64.RawURLEncoding (bytes ++ rest)%list) d
         = Sqlite3.Get now (base64.EncodeToString base64.RawURLEncoding bytes) d.
Proof.
  intros Hn Hrest Hne.
  destruct (varintBytes_spec n Hn) as (bytes & Hb & Hrange & Hlen & Hv).
  exists bytes. split; [assumption|].
  assert (Hall : Forall (fun b => 0 <= b < 256) (bytes ++ rest)%list)
    by (apply Forall_app; split; assumption).
  assert (Halias : Sqlite3.toInt64
                     (base64.EncodeToString base64.RawURLEncoding (bytes ++ rest)%list)
                   = (n, None)).
  { unfold Sqlite3.toInt64. rewrite DecodeString_EncodeToString by assumption.
    rewrite (Varint_app bytes rest n) by (assumption || lia). reflexivity. }
  assert (Hcanon : Sqlite3.toInt64 (base64.EncodeToString base64.RawURLEncoding bytes)
                   = (n, None)).
  { unfold Sqlite3.toInt64. rewrite DecodeString_EncodeToString by assumption.
    rewrite Hv. reflexivity. }
  split; [|split; [assumption|]].
  - intros E. apply (f_equal (base64.DecodeString base64.RawURLEncoding)) in E.
    rewrite !DecodeString_EncodeToString in E by assumption.
    injection E as E. apply Hne.
    apply (f_equal (@length Z)) in E. rewrite length_app in E.
    destruct rest; [reflexivity | cbn in E; lia].
  - intros now d. unfold Sqlite3.Get. rewrite Halias, Hcanon. reflexivity.
Qed.

(** X12: whatever key [Save] of the SQLite backend returns, each of its
    characters is in [0-9A-Za-z_-]. *)
Theorem X12_Sqlite3_Save_key_URL_safe (now : time.Time) (value : string) (ttl : time.Duration)
    (d d' : sql.DB) (key : string) :
  Sqlite3.Save now value ttl d = (d', Returns key) ->
  Redis.escape_MatchString key = false.
Proof.
  unfold Sqlite3.Save.
  destruct (Sqlite3.maxLength <? Sqlite3.len value); [intros [= _ <-]; reflexivity|].
  destruct (sql.insert _ _ _ d) as [d1 [index [e|]]]; [intros [= _ <-]; reflexivity|].
  destruct (varintBytes index) as [bytes|]; [|discriminate].
  intros [= _ <-]. apply Sqlite3_key_URL_safe.
Qed.

(** ** The SQLite backend: a link from [Save] on *)


(** X14: [Save] of the SQLite backend on a working database, for a URL
    within the limit and an identifier below 2^55, returns a key, and [Get]
    with that key returns the URL at every instant whose second is not past
    the stored [until], and the TTL error at every other; with [ttl = 0] the
    stored [until] is 0. *)
Theorem X14_Sqlite3_Save_then_Get (now : time.Time) (value : string) (ttl : time.Duration)
    (d : sql.DB) :
  sql.up d = true ->
  Sqlite3.len value <= Sqlite3.maxLength ->
  Z.max (sql.seq d) (sql.max_id (sql.shrtie_url d)) + 1 < 2 ^ 55 ->
  exists key,
    (Sqlite3.Save now value ttl d).2 = Returns key
    /\ forall now',
         Sqlite3.Get now' key (Sqlite3.Save now value ttl d).1
         = ((Sqlite3.Save now value ttl d).1,
            if (if negb (ttl =? 0) then time.Unix (time.Add now ttl) else 0)
               <? time.Unix now'
            then ("", Some Sqlite3.ErrTTL) else (value, None)).
Proof.
  intros Hup Hlen Hroom.
  destruct (Sqlite3_Save_spec now value ttl d Hup Hlen Hroom) as (bytes & _ & HSave & Hid).
  exists (base64.EncodeToString base64.RawURLEncoding bytes).
  rewrite HSave. cbn [fst snd]. split; [reflexivity|]. intros now'.
  set (d' := sql.mkDB _ _ true).
  rewrite (Sqlite3_Get_row now' _ _ d' _ Hid eq_refl (lookup_insert_eq _ _ _)).
  reflexivity.
Qed.

(** X15: once the identifiers of the SQLite backend have reached 2^55 - 1,
    [Save] inserts the row and then panics in [PutVarint]: the row is in the
    table, and the caller gets no key for it. *)
Theorem X15_Sqlite3_Save_panics_beyond_buffer (now : time.Time) (value : string) (ttl : time.Duration)
    (d : sql.DB) :
  sql.up d = true ->
  Sqlite3.len value <= Sqlite3.maxLength ->
  2 ^ 55 <= Z.max (sql.seq d) (sql.max_id (sql.shrtie_url d)) + 1 < 2 ^ 63 ->
  (Sqlite3.Save now value ttl d).2 = Panics
  /\ sql.url <$> (sql.shrtie_url (Sqlite3.Save now value ttl d).1
                   !! (Z.max (sql.seq d) (sql.max_id (sql.shrtie_url d)) + 1))
     = Some value.
Proof.
  intros Hup Hlen Hroom.
  rewrite (Sqlite3_Save_panics_spec now value ttl d Hup Hlen Hroom).
  cbn [fst snd sql.shrtie_url]. split; [reflexivity|].
  rewrite lookup_insert_eq. reflexivity.
Qed.

(** X16: a row of the SQLite backend whose [until] is positive and has
    passed.  [Get] turns the key down with the TTL error; [Info] returns the
    metadata of the row, with a TTL below zero. *)
Theorem X16_Sqlite3_expired_Get_and_Info (now : time.Time) (key : string) (id : Z) (d : sql.DB)
    (row : sql.row) :
  Sqlite3.toInt64 key = (id, None) ->
  sql.up d = true ->
  sql.shrtie_url d !! id = Some row ->
  0 < sql.until row < time.Unix now ->
  time.Unix now <= MaxInt64 ->
  Sqlite3.Get now key d = (d, ("", Some Sqlite3.ErrTTL))
  /\ Sqlite3.Info now key d
     = (d, (Some (mkMetadata (sql.url row) (sql.until row - time.Unix now)
                    (sql.count row) (time.FromUnix (sql.created row))), None))
  /\ sql.until row - time.Unix now < 0.
Proof.
  intros Hid Hup Hrow Huntil Hnow. split; [|split; [|lia]].
  - rewrite (Sqlite3_Get_row now key id d row Hid Hup Hrow).
    destruct (Z.ltb_spec (sql.until row) (time.Unix now)); [reflexivity | lia].
  - unfold Sqlite3.Info, sql.query. rewrite Hid, Hup, Hrow.
    destruct (Z.ltb_spec 0 (sql.until row)); [|lia].
    unfold i64, MaxInt64 in *. rewrite Z.mod_small by lia.
    do 4 f_equal. lia.
Qed.

(** [Info] of a key with no row: the error of the query is dropped, and the
    answer is the metadata of the zero values, with a nil error. *)
Lemma Sqlite3_Info_absent (now : time.Time) (key : string) (id : Z) (d : sql.DB) :
  Sqlite3.toInt64 key = (id, None) ->
  sql.shrtie_url d !! id = None ->
  Sqlite3.Info now key d = (d, (Some (mkMetadata "" 0 0 (time.FromUnix 0)), None)).
Proof.
  intros Hid Hrow. unfold Sqlite3.Info, sql.query. rewrite Hid, Hrow.
  destruct (sql.up d); reflexivity.
Qed.

(** ** The handlers over the backends *)

(** The redirect handler answers with what [Get] returned: a redirect for a
    nil error, the 404 for any other. *)
Lemma RedirectHandler_writes {S : Type} (backend : shrtie.GetSaver S)
    (now : time.Time) (id : string) (s : S) :
  handlers.RedirectHandler now id s
  = ((shrtie.Get now id s).1,
     match (shrtie.Get now id s).2.2 with
     | Some _ => [handlers.Error "Wrong Path" handlers.StatusNotFound]
     | None => [handlers.Redirect (shrtie.Get now id s).2.1
                  handlers.StatusMovedPermanently]
     end).
Proof.
  unfold handlers.RedirectHandler.
  destruct (shrtie.Get now id s) as [s' [value [e|]]]; reflexivity.
Qed.

(** X18: the redirect handler over the SQLite backend.  A request whose
    identifier is a well-formed key with no row is answered with a redirect
    (status 301) to the empty URL, not with the 404: [Get] returned a nil
    error. *)
Theorem X18_RedirectHandler_Sqlite3_absent (now : time.Time) (id : string) (n : Z) (d : sql.DB) :
  Sqlite3.toInt64 id = (n, None) ->
  sql.shrtie_url d !! n = None ->
  @handlers.RedirectHandler _ shrtie.Sqlite3_GetSaver now id d
  = (d, [handlers.Redirect "" handlers.StatusMovedPermanently]).
Proof.
  intros Hid Hrow. rewrite RedirectHandler_writes.
  cbn [shrtie.Get shrtie.Sqlite3_GetSaver].
  rewrite (Sqlite3_Get_absent now id n d Hid Hrow). reflexivity.
Qed.

(** X19: the redirect handler over the Redis backend, for a link saved for
    [k] whole seconds under a key [Get] takes: up to and including the second
    [now + k] the request is answered with a redirect (status 301) to the
    saved URL, after it with the 404. *)
Theorem X19_RedirectHandler_Redis_lifetime
    (r : Redis.Redis) (now now' : time.Time) (value : string) (k : Z)
    (c : redis.Client) (v : Z) (bytes : list Z) :
  redis.up c = true ->
  View.counter r c = Some v ->
  0 <= v < MaxInt64 ->
  varintBytes (v + 1) = Returns bytes ->
  redis.db c !! (Redis.prefix r ++ base64.EncodeToString base64.RawStdEncoding bytes)
  = None ->
  Redis.escape_MatchString (base64.EncodeToString base64.RawStdEncoding bytes) = false ->
  0 < k ->
  0 <= time.Unix now ->
  0 <= time.nsec now < 1000000000 ->
  time.Unix now + k <= MaxInt64 ->
  (@handlers.RedirectHandler _ (shrtie.Redis_GetSaver r) now'
     (base64.EncodeToString base64.RawStdEncoding bytes)
     (Redis.Save r now value (k * time.Second) c).1).2
  = if time.Unix now + k <? time.Unix now'
    then [handlers.Error "Wrong Path" handlers.StatusNotFound]
    else [handlers.Redirect value handlers.StatusMovedPermanently].
Proof.
  intros Hup Hcounter Hv Hbytes Hfree Hkey Hk Hnow Hnsec Hend.
  rewrite RedirectHandler_writes. cbn [snd shrtie.Get shrtie.Redis_GetSaver].
  rewrite (Save_Get_seconds r now value k c v bytes) by assumption.
  destruct (time.Unix now + k <? time.Unix now'); reflexivity.
Qed.

(** X20: the info handler does not return after an error.  For a key with
    nothing stored under it, over the Redis backend it writes the 404 and
    then encodes the nil metadata into the same response; over the SQLite
    backend, whose [Info] drops the error of the query, it writes no error
    and encodes the metadata of the zero values. *)
Theorem X20_InfoHandler_absent (r : Redis.Redis) (now : time.Time) (id : string)
    (c : redis.Client) (n : Z) (d : sql.DB) :
  redis.up c = true ->
  redis.db c !! (Redis.prefix r ++ id) = None ->
  Sqlite3.toInt64 id = (n, None) ->
  sql.shrtie_url d !! n = None ->
  (@handlers.InfoHandler _ (handlers.Redis_Infoer r) now id c).2
  = [handlers.Error "Wrong Path" handlers.StatusNotFound; handlers.Encode None]
  /\ (@handlers.InfoHandler _ handlers.Sqlite3_Infoer now id d).2
     = [handlers.Encode (Some (mkMetadata "" 0 0 (time.FromUnix 0)))].
Proof.
  intros Hup Habs Hid Hrow. unfold handlers.InfoHandler.
  cbn [handlers.Info handlers.Redis_Infoer handlers.Sqlite3_Infoer].
  rewrite (Info_spec r now id c ∅ Hup) by (unfold redis.hash_at; rewrite Habs; reflexivity).
  rewrite (Sqlite3_Info_absent now id n d Hid Hrow).
  split; reflexivity.
Qed.

(** ** The save handler: what it answers and what it passes on *)

(** X21: the save handler answers a request whose content type is not
    [application/json], or whose body the decoder does not take, with status
    400 and does not call the backend, whichever backend it is. *)
Theorem X21_SaveHandler_bad_request {S : Type} (backend : shrtie.GetSaver S)
    (concatURL : string -> bool -> string -> string -> string)
    (now : time.Time) (req : shrtie.Request) (s : S) :
  shrtie.ContentType req <> "application/json" \/ shrtie.Body req = None ->
  exists msg,
    shrtie.SaveHandler concatURL now req s
    = (s, Returns (shrtie.HTTPError msg shrtie.StatusBadRequest)).
Proof.
  intros Hbad. unfold shrtie.SaveHandler.
  destruct (String.eqb_spec (shrtie.ContentType req) "application/json") as [E | E];
    cbn [negb]; [|eauto].
  destruct Hbad as [Hct | Hbody]; [contradiction|].
  rewrite Hbody. eauto.
Qed.


(** X23: when the connection to Redis is down, [Save] returns the empty key
    and the save handler answers as for a success, with the link made from the
    empty key; nothing is stored. *)
Theorem X23_SaveHandler_Redis_down (r : Redis.Redis)
    (concatURL : string -> bool -> string -> string -> string)
    (now : time.Time) (host url : string) (tls : bool) (e : shrtie.Entry)
    (c : redis.Client) :
  redis.up c = false ->
  (@shrtie.SaveHandler _ (shrtie.Redis_GetSaver r) concatURL now
     (shrtie.mkRequest "application/json" (Some e) host tls url) c).2
  = Returns (shrtie.JSON (shrtie.mkAck (concatURL host tls url "")))
  /\ redis.db (@shrtie.SaveHandler _ (shrtie.Redis_GetSaver r) concatURL now
                 (shrtie.mkRequest "application/json" (Some e) host tls url) c).1
     = redis.db c.
Proof.
  intros Hdown. unfold shrtie.SaveHandler.
  cbn [shrtie.ContentType shrtie.Body shrtie.Host shrtie.TLS shrtie.RequestURL].
  change ("application/json" =? "application/json")%string with true. cbn [negb].
  cbn [shrtie.Save shrtie.Redis_GetSaver].
  unfold Redis.Save, redis.Incr, redis.process. rewrite Hdown.
  cbn [map redis.err_of fst snd redis.db]. split; reflexivity.
Qed.

(** * Further properties of the code *)

(** X1: a link saved by [Save] of the Redis backend for [k] whole seconds,
    under a key [Get] takes.  [Save] returns the key, and [Get] returns the
    URL at every instant up to and including the second [now + k], and the
    TTL error after it. *)
Theorem X1_Redis_Save_then_Get
    (r : Redis.Redis) (now : time.Time) (value : string) (k : Z)
    (c : redis.Client) (v : Z) (bytes : list Z) :
  redis.up c = true ->
  View.counter r c = Some v ->
  0 <= v < MaxInt64 ->
  varintBytes (v + 1) = Returns bytes ->
  redis.db c !! (Redis.prefix r ++ base64.EncodeToString base64.RawStdEncoding bytes)
  = None ->
  Redis.escape_MatchString (base64.EncodeToString base64.RawStdEncoding bytes) = false ->
  0 < k ->
  0 <= time.Unix now ->
  0 <= time.nsec now < 1000000000 ->
  time.Unix now + k <= MaxInt64 ->
  (Redis.Save r now value (k * time.Second) c).2
  = Returns (base64.EncodeToString base64.RawStdEncoding bytes)
  /\ forall now' : time.Time,
       (Redis.Get r now' (base64.EncodeToString base64.RawStdEncoding bytes)
          (Redis.Save r now value (k * time.Second) c).1).2
       = if time.Unix now + k <? time.Unix now' then ("", Some Redis.ErrTTL)
         else (value, None).
Proof.
  intros Hup Hcounter Hv Hbytes Hfree Hkey Hk Hnow Hnsec Hend. split.
  - destruct (Save_seconds r now value k c v bytes) as (HSave & _); try assumption.
    rewrite HSave. reflexivity.
  - intros now'. apply (Save_Get_seconds r now value k c v bytes); assumption.
Qed.

Lemma X1_Redis_Save_then_Get_witness :
  (Redis.Save Redis.New (Demo.clock 90) Demo.url (10 * time.Second) Demo.fresh).2
  = Returns (base64.EncodeToString base64.RawStdEncoding [2])
  /\ forall now' : time.Time,
       (Redis.Get Redis.New now' (base64.EncodeToString base64.RawStdEncoding [2])
          (Redis.Save Redis.New (Demo.clock 90) Demo.url (10 * time.Second) Demo.fresh).1).2
       = if time.Unix (Demo.clock 90) + 10 <? time.Unix now'
         then ("", Some Redis.ErrTTL) else (Demo.url, None).
Proof.
  apply (X1_Redis_Save_then_Get Redis.New (Demo.clock 90) Demo.url 10 Demo.fresh 0 [2]).
  - reflexivity.
  - reflexivity.
  - unfold MaxInt64. lia.
  - reflexivity.
  - reflexivity.
  - reflexivity.
  - lia.
  - cbn. lia.
  - cbn. lia.
  - cbn. unfold MaxInt64. lia.
Defined.

(** X2: for the same link, [Info] at an instant [now'] not before the epoch
    returns the URL, a click count of 0, the second of creation and the seconds
    left, [now + k - now'], as long as that is at least 1; from the second
    [now + k] on it returns the TTL error. *)
Theorem X2_Redis_Save_then_Info
    (r : Redis.Redis) (now now' : time.Time) (value : string) (k : Z)
    (c : redis.Client) (v : Z) (bytes : list Z) :
  redis.up c = true ->
  View.counter r c = Some v ->
  0 <= v < MaxInt64 ->
  varintBytes (v + 1) = Returns bytes ->
  redis.db c !! (Redis.prefix r ++ base64.EncodeToString base64.RawStdEncoding bytes)
  = None ->
  0 < k ->
  0 <= time.Unix now ->
  0 <= time.nsec now < 1000000000 ->
  time.Unix now + k <= MaxInt64 ->
  0 <= time.Unix now' <= MaxInt64 ->
  (Redis.Info r now' (base64.EncodeToString base64.RawStdEncoding bytes)
     (Redis.Save r now value (k * time.Second) c).1).2
  = if time.Unix now' <? time.Unix now + k
    then (Some (mkMetadata value (time.Unix now + k - time.Unix now') 0
                  (time.FromUnix (time.Unix now))), None)
    else (None, Some Redis.ErrTTL).
Proof.
  intros Hup Hcounter Hv Hbytes Hfree Hk Hnow Hnsec Hend Hnow'.
  apply (Save_Info_seconds r now value k c v bytes); assumption.
Qed.

Lemma X2_Redis_Save_then_Info_witness :
  (Redis.Info Redis.New (Demo.clock 100) (base64.EncodeToString base64.RawStdEncoding [2])
     (Redis.Save Redis.New (Demo.clock 90) Demo.url (10 * time.Second) Demo.fresh).1).2
  = if time.Unix (Demo.clock 100) <? time.Unix (Demo.clock 90) + 10
    then (Some (mkMetadata Demo.url
                  (time.Unix (Demo.clock 90) + 10 - time.Unix (Demo.clock 100)) 0
                  (time.FromUnix (time.Unix (Demo.clock 90)))), None)
    else (None, Some Redis.ErrTTL).
Proof.
  apply (X2_Redis_Save_then_Info Redis.New (Demo.clock 90) (Demo.clock 100) Demo.url 10
           Demo.fresh 0 [2]).
  - reflexivity.
  - reflexivity.
  - unfold MaxInt64. lia.
  - reflexivity.
  - reflexivity.
  - lia.
  - cbn. lia.
  - cbn. lia.
  - cbn. unfold MaxInt64. lia.
  - cbn. unfold MaxInt64. lia.
Defined.

Lemma X3_Redis_lookups_add_up_witness :
  exists h',
    redis.hash_at
      (redis.db (Sequence.lookups Redis.New "Ag"
                   [Demo.clock 95; Demo.clock 101; Demo.clock 102] Demo.saved))
      (Redis.prefix Redis.New ++ "Ag")
    = Some h'
    /\ View.clicked h'
       = 0 + Z.of_nat (length [Demo.clock 95; Demo.clock 101; Demo.clock 102])
    /\ forall f, f <> Redis.metaCount -> h' !! f = Demo.record !! f.
Proof.
  apply (X3_Redis_lookups_add_up Redis.New "Ag"
           [Demo.clock 95; Demo.clock 101; Demo.clock 102] Demo.saved Demo.record 0).
  - reflexivity.
  - reflexivity.
  - vm_compute. reflexivity.
  - reflexivity.
  - lia.
  - cbn. unfold MaxInt64. lia.
Defined.

Lemma X4_Redis_failed_lookup_leaves_record_witness :
  (Redis.Info Redis.New (Demo.clock 100) "Zz" Demo.saved).2
  = (None, Some Redis.ErrWrongKey)
  /\ (Redis.Get Redis.New (Demo.clock 95) "Zz" Demo.saved).2 = ("", Some redis_Nil)
  /\ (Redis.Info Redis.New (Demo.clock 100) "Zz"
        (Redis.Get Redis.New (Demo.clock 95) "Zz" Demo.saved).1).2
     = (Some (mkMetadata "" 0 1 (time.FromUnix 0)), None).
Proof.
  apply (X4_Redis_failed_lookup_leaves_record Redis.New (Demo.clock 95) (Demo.clock 100)
           "Zz" Demo.saved).
  - reflexivity.
  - reflexivity.
  - vm_compute. reflexivity.
  - cbn. unfold MaxInt64. lia.
Defined.

Lemma X6_Redis_Get_writes_count_only_witness :
  redis.db (Redis.Get Redis.New (Demo.clock 101) "Ag" Demo.saved).1 !! "shrtie/meta:count"
  = redis.db Demo.saved !! "shrtie/meta:count"
  /\ exists h', View.record Redis.New "Ag"
                  (Redis.Get Redis.New (Demo.clock 101) "Ag" Demo.saved).1 = Some h'
                /\ forall f, f <> Redis.metaCount -> h' !! f = Demo.record !! f.
Proof.
  destruct (X6_Redis_Get_writes_count_only Redis.New (Demo.clock 101) "Ag" Demo.saved)
    as [Hother Hrecord].
  split.
  - apply Hother. discriminate.
  - apply Hrecord. vm_compute. reflexivity.
Defined.

Lemma X7_Redis_Save_panics_beyond_buffer_witness :
  (Redis.Save Redis.New (Demo.clock 90) Demo.url 0 Sample.full).2 = Panics
  /\ View.counter Redis.New (Redis.Save Redis.New (Demo.clock 90) Demo.url 0 Sample.full).1
     = Some (36028797018963967 + 1)
  /\ forall k, k <> View.counterKey Redis.New ->
       redis.db (Redis.Save Redis.New (Demo.clock 90) Demo.url 0 Sample.full).1 !! k
       = redis.db Sample.full !! k.
Proof.
  apply (X7_Redis_Save_panics_beyond_buffer Redis.New (Demo.clock 90) Demo.url 0
           Sample.full 36028797018963967).
  - reflexivity.
  - vm_compute. reflexivity.
  - unfold MaxInt64. lia.
Defined.

Lemma X8_Redis_Save_versions_agree_witness :
  (RedisHMSet.Save Redis.New (Demo.clock 90) Demo.url 0 Demo.busy).2
  = (Redis.Save Redis.New (Demo.clock 90) Demo.url 0 Demo.busy).2
  /\ redis.db (RedisHMSet.Save Redis.New (Demo.clock 90) Demo.url 0 Demo.busy).1
     = redis.db (Redis.Save Redis.New (Demo.clock 90) Demo.url 0 Demo.busy).1
  /\ redis.up (RedisHMSet.Save Redis.New (Demo.clock 90) Demo.url 0 Demo.busy).1
     = redis.up (Redis.Save Redis.New (Demo.clock 90) Demo.url 0 Demo.busy).1.
Proof.
  apply (X8_Redis_Save_versions_agree Redis.New (Demo.clock 90) Demo.url 0 Demo.busy).
  vm_compute. discriminate.
Defined.

Lemma X10_Sqlite3_wrong_key_witness :
  Sqlite3.Get (Demo.clock 100) "a:b" Demo.kept
  = (Demo.kept, ("", Some Sqlite3.ErrWrongKey))
  /\ Sqlite3.Info (Demo.clock 100) "a:b" Demo.kept
     = (Demo.kept, (None, Some Sqlite3.ErrWrongKey)).
Proof.
  apply (X10_Sqlite3_wrong_key (Demo.clock 100) "a:b" ":"%char Demo.kept).
  - cbn. right. left. reflexivity.
  - reflexivity.
  - reflexivity.
Defined.

Lemma X11_toInt64_many_keys_one_link_witness :
  exists bytes,
    varintBytes 1 = Returns bytes
    /\ base64.EncodeToString base64.RawURLEncoding (bytes ++ [0])%list
       <> base64.EncodeToString base64.RawURLEncoding bytes
    /\ Sqlite3.toInt64 (base64.EncodeToString base64.RawURLEncoding (bytes ++ [0])%list)
       = (1, None)
    /\ forall now d,
         Sqlite3.Get now (base64.EncodeToString base64.RawURLEncoding (bytes ++ [0])%list) d
         = Sqlite3.Get now (base64.EncodeToString base64.RawURLEncoding bytes) d.
Proof.
  apply (X11_toInt64_many_keys_one_link 1 [0]).
  - lia.
  - repeat constructor; lia.
  - discriminate.
Defined.

Lemma X12_Sqlite3_Save_key_URL_safe_witness :
  Redis.escape_MatchString "Ag" = false.
Proof.
  apply (X12_Sqlite3_Save_key_URL_safe (Demo.clock 90) Demo.url 0 Demo.empty Demo.kept "Ag").
  vm_compute. reflexivity.
Defined.


Lemma X14_Sqlite3_Save_then_Get_witness :
  exists key,
    (Sqlite3.Save (Demo.clock 90) Demo.url (10 * time.Second) Demo.empty).2 = Returns key
    /\ forall now',
         Sqlite3.Get now' key
           (Sqlite3.Save (Demo.clock 90) Demo.url (10 * time.Second) Demo.empty).1
         = ((Sqlite3.Save (Demo.clock 90) Demo.url (10 * time.Second) Demo.empty).1,
            if (if negb (10 * time.Second =? 0)
                then time.Unix (time.Add (Demo.clock 90) (10 * time.Second)) else 0)
               <? time.Unix now'
            then ("", Some Sqlite3.ErrTTL) else (Demo.url, None)).
Proof.
  apply (X14_Sqlite3_Save_then_Get (Demo.clock 90) Demo.url (10 * time.Second) Demo.empty).
  - reflexivity.
  - vm_compute. discriminate.
  - vm_compute. reflexivity.
Defined.

Lemma X15_Sqlite3_Save_panics_beyond_buffer_witness :
  (Sqlite3.Save (Demo.clock 90) Demo.url 0 Sample.used_up).2 = Panics
  /\ sql.url <$> (sql.shrtie_url (Sqlite3.Save (Demo.clock 90) Demo.url 0 Sample.used_up).1
                   !! (Z.max (sql.seq Sample.used_up)
                             (sql.max_id (sql.shrtie_url Sample.used_up)) + 1))
     = Some Demo.url.
Proof.
  apply (X15_Sqlite3_Save_panics_beyond_buffer (Demo.clock 90) Demo.url 0 Sample.used_up).
  - reflexivity.
  - vm_compute. discriminate.
  - vm_compute. split; [discriminate | reflexivity].
Defined.

Lemma X16_Sqlite3_expired_Get_and_Info_witness :
  Sqlite3.Get (Demo.clock 200) "Ag" Sample.timed
  = (Sample.timed, ("", Some Sqlite3.ErrTTL))
  /\ Sqlite3.Info (Demo.clock 200) "Ag" Sample.timed
     = (Sample.timed,
        (Some (mkMetadata (sql.url (sql.mkRow Demo.url 100 0 90))
                 (sql.until (sql.mkRow Demo.url 100 0 90) - time.Unix (Demo.clock 200))
                 (sql.count (sql.mkRow Demo.url 100 0 90))
                 (time.FromUnix (sql.created (sql.mkRow Demo.url 100 0 90)))), None))
  /\ sql.until (sql.mkRow Demo.url 100 0 90) - time.Unix (Demo.clock 200) < 0.
Proof.
  apply (X16_Sqlite3_expired_Get_and_Info (Demo.clock 200) "Ag" 1 Sample.timed
           (sql.mkRow Demo.url 100 0 90)).
  - vm_compute. reflexivity.
  - reflexivity.
  - vm_compute. reflexivity.
  - cbn. lia.
  - cbn. unfold MaxInt64. lia.
Defined.

(** X17: [Get] and [Info] of the SQLite backend never write: the database
    after the call is the database before it, for every key; in particular
    no lookup changes a click count. *)
Theorem X17_Sqlite3_reads_only (now : time.Time) (key : string) (d : sql.DB) :
  (Sqlite3.Get now key d).1 = d /\ (Sqlite3.Info now key d).1 = d.
Proof.
  split; [apply Sqlite3_Get_reads_only|].
  unfold Sqlite3.Info. destruct (Sqlite3.toInt64 key) as [id [e|]]; [reflexivity|].
  destruct (0 <? _); [reflexivity|]. destruct (_ =? 0); reflexivity.
Qed.

Lemma X18_RedirectHandler_Sqlite3_absent_witness :
  @handlers.RedirectHandler _ shrtie.Sqlite3_GetSaver (Demo.clock 100) "Bg" Demo.kept
  = (Demo.kept, [handlers.Redirect "" handlers.StatusMovedPermanently]).
Proof.
  apply (X18_RedirectHandler_Sqlite3_absent (Demo.clock 100) "Bg" 3 Demo.kept).
  - vm_compute. reflexivity.
  - vm_compute. reflexivity.
Defined.

Lemma X19_RedirectHandler_Redis_lifetime_witness :
  (@handlers.RedirectHandler _ (shrtie.Redis_GetSaver Redis.New) (Demo.clock 100)
     (base64.EncodeToString base64.RawStdEncoding [2])
     (Redis.Save Redis.New (Demo.clock 90) Demo.url (10 * time.Second) Demo.fresh).1).2
  = if time.Unix (Demo.clock 90) + 10 <? time.Unix (Demo.clock 100)
    then [handlers.Error "Wrong Path" handlers.StatusNotFound]
    else [handlers.Redirect Demo.url handlers.StatusMovedPermanently].
Proof.
  apply (X19_RedirectHandler_Redis_lifetime Redis.New (Demo.clock 90) (Demo.clock 100)
           Demo.url 10 Demo.fresh 0 [2]).
  - reflexivity.
  - reflexivity.
  - unfold MaxInt64. lia.
  - reflexivity.
  - reflexivity.
  - reflexivity.
  - lia.
  - cbn. lia.
  - cbn. lia.
  - cbn. unfold MaxInt64. lia.
Defined.

Lemma X20_InfoHandler_absent_witness :
  (@handlers.InfoHandler _ (handlers.Redis_Infoer Redis.New) (Demo.clock 100) "Bg"
     Demo.saved).2
  = [handlers.Error "Wrong Path" handlers.StatusNotFound; handlers.Encode None]
  /\ (@handlers.InfoHandler _ handlers.Sqlite3_Infoer (Demo.clock 100) "Bg" Demo.kept).2
     = [handlers.Encode (Some (mkMetadata "" 0 0 (time.FromUnix 0)))].
Proof.
  apply (X20_InfoHandler_absent Redis.New (Demo.clock 100) "Bg" Demo.saved 3 Demo.kept).
  - reflexivity.
  - vm_compute. reflexivity.
  - vm_compute. reflexivity.
  - vm_compute. reflexivity.
Defined.

Lemma X21_SaveHandler_bad_request_witness :
  exists msg,
    @shrtie.SaveHandler _ (shrtie.Redis_GetSaver Redis.New) Sample.link (Demo.clock 90)
      (shrtie.mkRequest "text/plain" (Some (Sample.entry 10)) "example.org" false "/s")
      Demo.fresh
    = (Demo.fresh, Returns (shrtie.HTTPError msg shrtie.StatusBadRequest)).
Proof.
  apply (X21_SaveHandler_bad_request (shrtie.Redis_GetSaver Redis.New) Sample.link
           (Demo.clock 90)
           (shrtie.mkRequest "text/plain" (Some (Sample.entry 10)) "example.org" false "/s")
           Demo.fresh).
  left. discriminate.
Defined.


Lemma X23_SaveHandler_Redis_down_witness :
  (@shrtie.SaveHandler _ (shrtie.Redis_GetSaver Redis.New) Sample.link (Demo.clock 90)
     (shrtie.mkRequest "application/json" (Some (Sample.entry 10)) "example.org" false "/s")
     (redis.mkClient ∅ false [])).2
  = Returns (shrtie.JSON (shrtie.mkAck (Sample.link "example.org" false "/s" "")))
  /\ redis.db (@shrtie.SaveHandler _ (shrtie.Redis_GetSaver Redis.New) Sample.link
                 (Demo.clock 90)
                 (shrtie.mkRequest "application/json" (Some (Sample.entry 10))
                    "example.org" false "/s")
                 (redis.mkClient ∅ false [])).1
     = redis.db (redis.mkClient ∅ false []).
Proof.
  apply (X23_SaveHandler_Redis_down Redis.New Sample.link (Demo.clock 90) "example.org" "/s"
           false (Sample.entry 10) (redis.mkClient ∅ false [])).
  reflexivity.
Defined.

(** X24: [Save] of the Redis version with [maxLength], and [Save] of the
    SQLite backend, called with a URL of more than 2048 bytes, return the
    empty key before anything else: no identifier is taken and the store is
    as before. *)
Theorem X24_Save_too_long
    (r : Redis.Redis) (now : time.Time) (value : string) (ttl : time.Duration)
    (c : redis.Client) (d : sql.DB) :
  2048 < Z.of_nat (String.length value) ->
  RedisHMSet.Save r now value ttl c = (c, Returns "")
  /\ Sqlite3.Save now value ttl d = (d, Returns "").
Proof.
  intros Hlen. split.
  - apply RedisHMSet_Save_too_long. exact Hlen.
  - apply Sqlite3_Save_too_long. exact Hlen.
Qed.

Lemma X24_Save_too_long_witness :
  RedisHMSet.Save Redis.New (Demo.clock 90) Demo.long 0 Demo.busy = (Demo.busy, Returns "")
  /\ Sqlite3.Save (Demo.clock 90) Demo.long 0 Demo.kept = (Demo.kept, Returns "").
Proof.
  apply (X24_Save_too_long Redis.New (Demo.clock 90) Demo.long 0 Demo.busy Demo.kept).
  vm_compute. reflexivity.
Defined.

(** X25: [Get] of the Redis backend on a record with a URL and an [until]
    returns the URL exactly when the [until], read as a number, is 0 or is
    not before the second of the read; an [until] that is no number reads
    as 0. *)
Theorem X25_Redis_Get_live_iff
    (r : Redis.Redis) (now : time.Time) (key : string) (c : redis.Client)
    (h : gmap string string) (n : Z) (u t : string) :
  redis.up c = true ->
  Redis.escape_MatchString key = false ->
  redis.hash_at (redis.db c) (Redis.prefix r ++ key) = Some h ->
  match h !! Redis.metaCount with
  | Some v => redis.string2ll v = Some n
  | None => n = 0
  end ->
  MinInt64 <= n + 1 <= MaxInt64 ->
  h !! Redis.metaUrl = Some u ->
  h !! Redis.metaUntil = Some t ->
  (Redis.Get r now key c).2 = (u, None)
  <-> (strconv.ParseInt t).1 = 0 \/ time.Unix now <= (strconv.ParseInt t).1.
Proof.
  intros Hup Hkey Hhash Hcount Hroom Hu Ht.
  rewrite (Get_spec r now key c h n) by assumption.
  cbn [snd]. rewrite Hu, Ht. cbv zeta.
  destruct (Z.eqb_spec (strconv.ParseInt t).1 0) as [E0 | E0];
    destruct (Z.ltb_spec (strconv.ParseInt t).1 (time.Unix now)) as [El | El];
    cbn [negb andb]; split; intros H; try reflexivity; try discriminate;
    try (left; assumption); try (right; assumption).
  destruct H; [contradiction | lia].
Qed.

Lemma X25_Redis_Get_live_iff_witness :
  (Redis.Get Redis.New (Demo.clock 100) "Ag" Demo.saved).2 = (Demo.url, None)
  <-> (strconv.ParseInt "100").1 = 0
      \/ time.Unix (Demo.clock 100) <= (strconv.ParseInt "100").1.
Proof.
  apply (X25_Redis_Get_live_iff Redis.New (Demo.clock 100) "Ag" Demo.saved Demo.record 0
           Demo.url "100").
  - reflexivity.
  - reflexivity.
  - vm_compute. reflexivity.
  - reflexivity.
  - unfold MinInt64, MaxInt64. lia.
  - reflexivity.
  - reflexivity.
Defined.

(** X26: a [Save] of the Redis backend that goes through moves the counter
    up by exactly one, sets the three fields [url], [created] and [until] of
    the hash under the new key, and leaves every other key of the store as it
    was. *)
Theorem X26_Redis_Save_writes
    (r : Redis.Redis) (now : time.Time) (value : string) (ttl : time.Duration)
    (c : redis.Client) (v : Z) (bytes : list Z) (h0 : gmap string string) :
  redis.up c = true ->
  View.counter r c = Some v ->
  MinInt64 <= v + 1 <= MaxInt64 ->
  varintBytes (v + 1) = Returns bytes ->
  redis.hash_at (redis.db c)
    (Redis.prefix r ++ base64.EncodeToString base64.RawStdEncoding bytes) = Some h0 ->
  (Redis.Save r now value ttl c).2
  = Returns (base64.EncodeToString base64.RawStdEncoding bytes)
  /\ View.counter r (Redis.Save r now value ttl c).1 = Some (v + 1)
  /\ View.record r (base64.EncodeToString base64.RawStdEncoding bytes)
       (Redis.Save r now value ttl c).1
     = Some (<[Redis.metaUntil :=
                 if ttl =? 0 then "0"
                 else strconv.FormatInt (time.Unix (time.Add now ttl))]>
               (<[Redis.metaCreated := strconv.FormatInt (time.Unix now)]>
                  (<[Redis.metaUrl := value]> h0)))
  /\ forall k,
       k <> View.counterKey r ->
       k <> Redis.prefix r ++ base64.EncodeToString base64.RawStdEncoding bytes ->
       redis.db (Redis.Save r now value ttl c).1 !! k = redis.db c !! k.
Proof.
  intros Hup Hcounter Hroom Hbytes Hpath.
  rewrite (Save_spec r now value ttl c v bytes h0) by assumption.
  cbn [fst snd]. split; [reflexivity|]. split; [|split].
  - unfold View.counter. cbn [redis.db].
    rewrite lookup_insert_ne by apply path_not_counter.
    rewrite lookup_insert_eq. apply string2ll_FormatInt. assumption.
  - unfold View.record. cbn [redis.db]. rewrite lookup_insert_eq. reflexivity.
  - intros k Hk1 Hk2. cbn [redis.db].
    rewrite !lookup_insert_ne by congruence. reflexivity.
Qed.

Lemma X26_Redis_Save_writes_witness :
  (Redis.Save Redis.New (Demo.clock 90) Demo.url 0 Demo.busy).2
  = Returns (base64.EncodeToString base64.RawStdEncoding [248; 1])
  /\ View.counter Redis.New (Redis.Save Redis.New (Demo.clock 90) Demo.url 0 Demo.busy).1
     = Some (123 + 1)
  /\ View.record Redis.New (base64.EncodeToString base64.RawStdEncoding [248; 1])
       (Redis.Save Redis.New (Demo.clock 90) Demo.url 0 Demo.busy).1
     = Some (<[Redis.metaUntil :=
                 if 0 =? 0 then "0"
                 else strconv.FormatInt (time.Unix (time.Add (Demo.clock 90) 0))]>
               (<[Redis.metaCreated := strconv.FormatInt (time.Unix (Demo.clock 90))]>
                  (<[Redis.metaUrl := Demo.url]> ∅)))
  /\ forall k,
       k <> View.counterKey Redis.New ->
       k <> Redis.prefix Redis.New ++ base64.EncodeToString base64.RawStdEncoding [248; 1] ->
       redis.db (Redis.Save Redis.New (Demo.clock 90) Demo.url 0 Demo.busy).1 !! k
       = redis.db Demo.busy !! k.
Proof.
  apply (X26_Redis_Save_writes Redis.New (Demo.clock 90) Demo.url 0 Demo.busy 123
           [248; 1] ∅).
  - reflexivity.
  - vm_compute. reflexivity.
  - unfold MinInt64, MaxInt64. lia.
  - vm_compute. reflexivity.
  - vm_compute. reflexivity.
Defined.
